(** * ddtrace.contrib.httplib.patch: a shallow embedding

    The httplib integration replaces five methods of [HTTPConnection] by
    [wrapt.FunctionWrapper]s.  Every wrapper receives the replaced method
    ([func]), the connection ([instance]) and the call's [args]/[kwargs],
    and runs Python code with exceptions, [try]/[except]/[finally] and
    mutation of the connection, of the spans and of [kwargs].

    The embedding is a state-and-exception monad over a [World] that holds
    the tracer's spans (shared, mutable objects addressed by index), the
    connection the wrappers are called on and the debug log.  Python values
    that flow through the wrappers are a small tagged union [pyval]. *)

From stdpp Require Import gmap strings list fin_maps pretty.

Open Scope string_scope.
Open Scope Z_scope.

(** ** Exceptions and outcomes *)

(** A raised object.  [exn_is_Exception] tells whether it is an instance of
    [Exception] (what [except Exception:] catches) or only of
    [BaseException] ([KeyboardInterrupt], [SystemExit], ...). *)
Record exn := Exn {
  exn_is_Exception : bool;
  exn_type : string;
  exn_msg : string
}.

Definition AttributeError (msg : string) : exn := Exn true "AttributeError" msg.
Definition IndexError (msg : string) : exn := Exn true "IndexError" msg.
Definition ValueError (msg : string) : exn := Exn true "ValueError" msg.
Definition TypeError (msg : string) : exn := Exn true "TypeError" msg.

Inductive outcome (A : Type) : Type :=
  | Return (a : A)
  | Raise (e : exn).
Arguments Return {A} a.
Arguments Raise {A} e.

(** ** The monad of Python statements over a state [S] *)

Definition M (S A : Type) : Type := S -> outcome A * S.

Definition ret {S A} (a : A) : M S A := fun s => (Return a, s).

Definition raise {S A} (e : exn) : M S A := fun s => (Raise e, s).

Definition bind {S A B} (m : M S A) (k : A -> M S B) : M S B :=
  fun s => match m s with
           | (Return a, s') => k a s'
           | (Raise e, s') => (Raise e, s')
           end.

Notation "x <- m ;; k" := (bind m (fun x => k))
  (at level 100, m at next level, right associativity).
Notation "m ;;; k" := (bind m (fun _ => k))
  (at level 100, right associativity).

(** [if c: body] *)
Definition when {S} (c : bool) (body : M S unit) : M S unit :=
  if c then body else ret tt.

(** [try: body  except Exception: handler].  Only instances of [Exception]
    are caught; the handler runs in the state the body left behind. *)
Definition try_except_Exception {S A} (body : M S A) (handler : exn -> M S A) : M S A :=
  fun s => match body s with
           | (Return a, s') => (Return a, s')
           | (Raise e, s') =>
               if exn_is_Exception e then handler e s' else (Raise e, s')
           end.

(** [resp = None; try: resp = body; return resp  finally: fin(resp)].
    The finaliser sees what was assigned to [resp] ([None] when the body
    raised), runs on both paths, and an exception of the finaliser replaces
    the body's outcome. *)
Definition try_return_finally {S A} (body : M S A) (fin : option A -> M S unit) : M S A :=
  fun s => match body s with
           | (Return a, s') =>
               match fin (Some a) s' with
               | (Return _, s'') => (Return a, s'')
               | (Raise e', s'') => (Raise e', s'')
               end
           | (Raise e, s') =>
               match fin None s' with
               | (Return _, s'') => (Raise e, s'')
               | (Raise e', s'') => (Raise e', s'')
               end
           end.

(** ** Python values *)

Inductive pyval :=
  | PNone
  | PBool (b : bool)
  | PInt (z : Z)
  | PStr (s : string)
  | PDict (d : gmap string string)
  | PSpan (ref : nat)
  | PResponse (status : Z) (headers : list (string * string)).

(** Truth value of an object in [if v:]. *)
Definition truthy (v : pyval) : bool :=
  match v with
  | PNone => false
  | PBool b => b
  | PInt z => negb (z =? 0)
  | PStr s => negb (String.eqb s "")
  | PDict d => negb (bool_decide (d = ∅))
  | PSpan _ => true
  | PResponse _ _ => true
  end.

(** Values stored in span tags. *)
Inductive tagval :=
  | TNone
  | TInt (z : Z)
  | TStr (s : string).

Definition tag_of (v : pyval) : tagval :=
  match v with
  | PInt z => TInt z
  | PStr s => TStr s
  | PBool b => TStr (if b then "True" else "False")
  | _ => TNone
  end.

(** ** Spans *)

(** Modelled from the spec: the span object of the tracer (section 6: "a
    span object providing [set_tag], [set_exc_info], [finish], an [error]
    flag"; the class itself is not among the sources).  [finish_calls]
    counts the calls of [finish()], so that "finished exactly once" can be
    stated; [set_exc_info] records the exception and sets the error flag
    (section 7). *)
Module Span.
Record t := mk {
  name : string;
  span_type : string;
  trace_id : Z;
  span_id : Z;
  meta : gmap string tagval;
  error : Z;
  exc_info : option exn;
  finish_calls : nat
}.

Definition set_tag (k : string) (v : tagval) (s : t) : t :=
  mk (name s) (span_type s) (trace_id s) (span_id s)
     (<[k := v]> (meta s)) (error s) (exc_info s) (finish_calls s).

(** [span.error = v] *)
Definition set_error (v : Z) (s : t) : t :=
  mk (name s) (span_type s) (trace_id s) (span_id s)
     (meta s) v (exc_info s) (finish_calls s).

Definition set_exc_info (e : exn) (s : t) : t :=
  mk (name s) (span_type s) (trace_id s) (span_id s)
     (meta s) 1 (Some e) (finish_calls s).

Definition finish (s : t) : t :=
  mk (name s) (span_type s) (trace_id s) (span_id s)
     (meta s) (error s) (exc_info s) (S (finish_calls s)).

(** A span is open until [finish()] has been called on it. *)
Definition is_open (s : t) : bool := Nat.eqb (finish_calls s) 0.
End Span.

(** ** Configuration, tracer and pin *)

(** Modelled from the spec: the per-integration configuration toggles of
    section 6 (distributed-tracing header injection, analytics sample rate,
    query-string capture) and the headers selected for tagging. *)
Record IntegrationConfig := {
  distributed_tracing : bool;
  trace_query_string : bool;
  analytics_sample_rate : tagval;
  header_is_traced : string -> bool
}.

(** What the wrappers read of a tracer: [tracer.enabled] and the address of
    its writer's agent API ([tracer.writer.api.hostname], [.port]). *)
Module Tracer.
Record t := mk {
  enabled : bool;
  api_hostname : string;
  api_port : Z
}.
End Tracer.

(** Modelled from the spec: the pin of the glossary, "per-object
    configuration/attachment handle (tracer + service name)". *)
Module Pin.
Record t := mk {
  app : string;
  service : option string;
  tracer : Tracer.t;
  _config : IntegrationConfig
}.

(** [pin.enabled()] *)
Definition enabled (p : t) : bool := Tracer.enabled (tracer p).
End Pin.

(** ** The connection and the world *)

(** An [HTTPConnection] object: the attributes the wrappers read, the pin
    attached by [Pin.onto], and the out-of-band attributes set with
    [setattr] (the instance dictionary, where [_datadog_span] lives). *)
Record HTTPConnection := {
  host : string;
  port : Z;
  is_HTTPSConnection : bool;
  datadog_pin : option Pin.t;
  attrs : gmap string pyval
}.

Record World := {
  spans : list Span.t;          (* spans made by the tracer; a span's reference is its index *)
  instance : HTTPConnection;    (* the connection object the wrappers are bound to *)
  debug_log : list string       (* messages of [log.debug] *)
}.

Definition set_spans (f : list Span.t -> list Span.t) (w : World) : World :=
  {| spans := f (spans w); instance := instance w; debug_log := debug_log w |}.

Definition set_attrs (f : gmap string pyval -> gmap string pyval) (w : World) : World :=
  {| spans := spans w;
     instance := {| host := host (instance w); port := port (instance w);
                    is_HTTPSConnection := is_HTTPSConnection (instance w);
                    datadog_pin := datadog_pin (instance w);
                    attrs := f (attrs (instance w)) |};
     debug_log := debug_log w |}.

Definition set_pin (p : option Pin.t) (w : World) : World :=
  {| spans := spans w;
     instance := {| host := host (instance w); port := port (instance w);
                    is_HTTPSConnection := is_HTTPSConnection (instance w);
                    datadog_pin := p;
                    attrs := attrs (instance w) |};
     debug_log := debug_log w |}.

(** The replaced method, called as [func( *args, **kwargs)]. *)
Definition Func : Type := list pyval -> gmap string pyval -> M World pyval.

(** ** What the module imports *)

(** Calls into the tracing library that the wrappers guard with
    [try]/[except]: each may raise. *)
Inductive instr_op :=
  | TracerTrace
  | SpanSetTag (key : string)
  | PropagatorInject
  | StoreRequestHeaders
  | StoreResponseHeaders.

Record ParseResult := {
  pr_scheme : string;
  pr_netloc : string;
  pr_path : string;
  pr_params : string;
  pr_query : string;
  pr_fragment : string
}.

(** The names imported by [patch.py] whose definitions are outside it:
    constants, the standard library's URL functions, the global
    configuration and tracer, and an oracle telling which calls into the
    tracing library fail. *)
Record Env := {
  PY2 : bool;
  config_httplib : IntegrationConfig;            (* [config.httplib] *)
  global_tracer : Tracer.t;                      (* [ddtrace.tracer] *)
  faults : instr_op -> option exn;
  fresh_ids : nat -> Z * Z;                      (* trace id and span id of the n-th span *)
  urlparse : string -> outcome ParseResult;      (* [parse.urlparse] *)
  urlunparse : string -> string -> string -> string -> option string -> string -> string;
  repr_object : pyval -> string;                 (* [str()] of dicts and objects *)
  SpanTypes_HTTP : string;
  STATUS_CODE : string;                          (* [ext_http.STATUS_CODE] *)
  URL : string;
  METHOD : string;
  QUERY_STRING : string;
  ANALYTICS_SAMPLE_RATE_KEY : string;
  HTTP_HEADER_TRACE_ID : string;
  HTTP_HEADER_PARENT_ID : string;
  header_tag : bool -> string -> string          (* tag name of a request (true) or response header *)
}.

(** ** Python built-ins used by the wrappers *)

(** [for x in l: body(x)] *)
Fixpoint for_each {S A} (l : list A) (body : A -> M S unit) : M S unit :=
  match l with
  | [] => ret tt
  | x :: l' => body x ;;; for_each l' body
  end.

(** [args[i]] *)
Definition py_index {S} (args : list pyval) (i : nat) : M S pyval :=
  match args !! i with
  | Some v => ret v
  | None => raise (IndexError "tuple index out of range")
  end.

(** [a, b = t] *)
Definition unpack2 {S} (t : list pyval) : M S (pyval * pyval) :=
  match t with
  | [a; b] => ret (a, b)
  | _ => raise (ValueError "wrong number of values to unpack")
  end.

(** [d[k] = v] on a dictionary kept in insertion order. *)
Fixpoint dict_set {V} (k : string) (v : V) (d : list (string * V)) : list (string * V) :=
  match d with
  | [] => [(k, v)]
  | (k', v') :: d' =>
      if String.eqb k k' then (k, v) :: d' else (k', v') :: dict_set k v d'
  end.

(** [dict(pairs)] *)
Definition dict {V} (pairs : list (string * V)) : list (string * V) :=
  foldl (fun d kv => dict_set (fst kv) (snd kv) d) [] pairs.

(** [kwargs.setdefault(k, dflt)]: the dictionary afterwards and the
    value returned. *)
Definition setdefault (k : string) (dflt : pyval) (kwargs : gmap string pyval)
  : gmap string pyval * pyval :=
  match kwargs !! k with
  | Some v => (kwargs, v)
  | None => (<[k := dflt]> kwargs, dflt)
  end.

(** ** Attribute access on the connection *)

Definition log_debug (msg : string) : M World unit :=
  fun w => (Return tt,
            {| spans := spans w; instance := instance w;
               debug_log := (debug_log w ++ [msg])%list |}).

(** [getattr(instance, name, dflt)] *)
Definition getattr (name : string) (dflt : pyval) : M World pyval :=
  fun w => (Return (default dflt (attrs (instance w) !! name)), w).

(** [instance.<name>] *)
Definition getattr_strict (name : string) : M World pyval :=
  fun w => match attrs (instance w) !! name with
           | Some v => (Return v, w)
           | None => (Raise (AttributeError name), w)
           end.

Definition hasattr (name : string) : M World bool :=
  fun w => (Return (bool_decide (is_Some (attrs (instance w) !! name))), w).

Definition setattr (name : string) (v : pyval) : M World unit :=
  fun w => (Return tt, set_attrs (insert name v) w).

Definition delattr (name : string) : M World unit :=
  fun w => match attrs (instance w) !! name with
           | Some _ => (Return tt, set_attrs (delete name) w)
           | None => (Raise (AttributeError name), w)
           end.

Definition get_instance : M World HTTPConnection :=
  fun w => (Return (instance w), w).

(** [Pin.get_from(instance)] *)
Definition Pin_get_from : M World (option Pin.t) :=
  fun w => (Return (datadog_pin (instance w)), w).

(** [pin.onto(instance)] *)
Definition Pin_onto (p : Pin.t) : M World unit :=
  fun w => (Return tt, set_pin (Some p) w).

(** Modelled from the spec: [config.get_from(instance)], the configuration
    attached to the object through its pin (glossary, "Pin"); without a pin
    there is none and every toggle reads as unset. *)
Definition config_get_from : M World (option IntegrationConfig) :=
  fun w => (Return (Pin._config <$> datadog_pin (instance w)), w).

(** [cfg.get("distributed_tracing")] *)
Definition cfg_get_distributed_tracing (cfg : option IntegrationConfig) : bool :=
  match cfg with
  | Some c => distributed_tracing c
  | None => false
  end.

(** A method call [span.m(...)] on whatever object [span] is bound to: on a
    span it updates the shared span object, on anything else the attribute
    lookup raises. *)
Definition span_method (span : pyval) (method : string) (f : Span.t -> Span.t) : M World unit :=
  match span with
  | PSpan r => fun w => (Return tt, set_spans (alter f r) w)
  | _ => raise (AttributeError method)
  end.

(** [span.context]: the trace id and span id to propagate. *)
Definition span_context (span : pyval) : M World (Z * Z) :=
  match span with
  | PSpan r => fun w =>
      match spans w !! r with
      | Some s => (Return (Span.trace_id s, Span.span_id s), w)
      | None => (Raise (AttributeError "context"), w)
      end
  | _ => raise (AttributeError "context")
  end.

(** [resp.status] and [resp.getheaders()] *)
Definition resp_status (resp : pyval) : M World Z :=
  match resp with
  | PResponse st _ => ret st
  | _ => raise (AttributeError "status")
  end.

Definition resp_getheaders (resp : pyval) : M World (list (string * string)) :=
  match resp with
  | PResponse _ hs => ret hs
  | _ => raise (AttributeError "getheaders")
  end.

(** ** The wrappers of [patch.py] *)

(** The local variables [args] and [kwargs] of a wrapper, for the one
    wrapper that mutates them. *)
Record Frame := { f_args : list pyval; f_kwargs : gmap string pyval }.

Definition liftW {A} (m : M World A) : M (Frame * World) A :=
  fun s => match m (snd s) with (r, w') => (r, (fst s, w')) end.

Definition get_frame : M (Frame * World) Frame :=
  fun s => (Return (fst s), s).

Definition put_frame (fr : Frame) : M (Frame * World) unit :=
  fun s => (Return tt, (fr, snd s)).

(** Runs a block that works on the locals [fr] and gives the locals as the
    block leaves them.  An exception leaving the block leaves the wrapper. *)
Definition with_frame (fr : Frame) (block : M (Frame * World) unit) : M World Frame :=
  fun w => match block (fr, w) with
           | (Return _, (fr', w')) => (Return fr', w')
           | (Raise e, (_, w')) => (Raise e, w')
           end.

Definition lift_outcome {S A} (o : outcome A) : M S A :=
  match o with
  | Return a => ret a
  | Raise e => raise e
  end.

Section Wrappers.
Variable E : Env.

(** [span_name = 'httplib.request' if PY2 else 'http.client.request'] *)
Definition span_name : string :=
  if PY2 E then "httplib.request" else "http.client.request".

(** [str(v)], as [format] applies it. *)
Definition py_str (v : pyval) : string :=
  match v with
  | PStr s => s
  | PNone => "None"
  | PBool b => if b then "True" else "False"
  | PInt z => pretty z
  | _ => repr_object E v
  end.

Definition check_fault {S} (op : instr_op) : M S unit :=
  match faults E op with
  | Some e => raise e
  | None => ret tt
  end.

(** Modelled from the spec: [tracer.trace(name, span_type) -> Span]
    (section 6).  A new span object is made, open, without tags and
    without error; its reference is returned. *)
Definition tracer_trace (name ty : string) : M World pyval :=
  check_fault TracerTrace ;;;
  fun w =>
    let n := length (spans w) in
    let ids := fresh_ids E n in
    (Return (PSpan n),
     set_spans (fun l => (l ++ [Span.mk name ty (fst ids) (snd ids) ∅ 0 None 0%nat])%list) w).

(** [span.set_tag(key, value)] *)
Definition span_set_tag (span : pyval) (key : string) (value : tagval) : M World unit :=
  match span with
  | PSpan _ => check_fault (SpanSetTag key) ;;; span_method span "set_tag" (Span.set_tag key value)
  | _ => raise (AttributeError "set_tag")
  end.

(** The headers dictionary [d] after [headers[HTTP_HEADER_TRACE_ID] = ...]
    and [headers[HTTP_HEADER_PARENT_ID] = ...]. *)
Definition propagation_headers (ctx : Z * Z) (d : gmap string string) : gmap string string :=
  <[HTTP_HEADER_PARENT_ID E := pretty (snd ctx)]>
    (<[HTTP_HEADER_TRACE_ID E := pretty (fst ctx)]> d).

(** Modelled from the spec: the "header-propagation injector" of section
    6, [HTTPPropagator().inject(span.context, headers)].  It writes the
    trace id and the parent id into the [headers] dictionary; the tests
    read them back as [str(span.trace_id)] and [str(span.span_id)]. *)
Definition propagator_inject (ctx : Z * Z) (headers : pyval) : M World pyval :=
  check_fault PropagatorInject ;;;
  match headers with
  | PDict d => ret (PDict (propagation_headers ctx d))
  | _ => raise (TypeError "object does not support item assignment")
  end.

(** Modelled from the spec: [store_request_headers] and
    [store_response_headers] of [ddtrace.http], which "attach a tag"
    (section 4) for every header the configuration selects. *)
Definition store_headers (request : bool) (headers : list (string * pyval))
    (span : pyval) (cfg : IntegrationConfig) : M World unit :=
  check_fault (if request then StoreRequestHeaders else StoreResponseHeaders) ;;;
  for_each headers (fun kv =>
    when (header_is_traced cfg (fst kv))
         (span_set_tag span (header_tag E request (fst kv)) (tag_of (snd kv)))).

Definition store_request_headers := store_headers true.
Definition store_response_headers := store_headers false.

(** [{args[0]: args[1]}] *)
Definition header_dict (args : list pyval) : M World (list (string * pyval)) :=
  a0 <- py_index args 0 ;;
  a1 <- py_index args 1 ;;
  match a0 with
  | PDict _ => raise (TypeError "unhashable type: 'dict'")
  | _ => ret [(py_str a0, a1)]
  end.

(** [_wrap_init], lines 28-30. *)
Definition _wrap_init (func : Func) (args : list pyval) (kwargs : gmap string pyval)
  : M World pyval :=
  Pin_onto (Pin.mk "httplib" None (global_tracer E) (config_httplib E)) ;;;
  func args kwargs.

(** The [finally] block of [_wrap_getresponse], lines 44-56. *)
Definition getresponse_finally (resp : pyval) : M World unit :=
  try_except_Exception
    (span <- getattr "_datadog_span" PNone ;;
     when (truthy span)
       (when (truthy resp)
          (status <- resp_status resp ;;
           span_set_tag span (STATUS_CODE E) (TInt status) ;;;
           span_method span "error" (Span.set_error (if 500 <=? status then 1 else 0)) ;;;
           hs <- resp_getheaders resp ;;
           store_response_headers (dict (prod_map id PStr <$> hs)) span (config_httplib E)) ;;;
        span_method span "finish" Span.finish ;;;
        delattr "_datadog_span"))
    (fun _ => log_debug "error applying request tags").

(** [_wrap_getresponse], lines 33-56. *)
Definition _wrap_getresponse (func : Func) (args : list pyval) (kwargs : gmap string pyval)
  : M World pyval :=
  pin <- Pin_get_from ;;
  if negb (from_option Pin.enabled false pin) then func args kwargs
  else
    try_return_finally (func args kwargs)
      (fun resp => getresponse_finally (default PNone resp)).

(** [should_skip_request], lines 168-174. *)
Definition should_skip_request (pin : option Pin.t) (request : HTTPConnection) : bool :=
  match pin with
  | None => true
  | Some p =>
      if negb (Pin.enabled p) then true
      else
        let api := Pin.tracer p in
        String.eqb (host request) (Tracer.api_hostname api)
        && (port request =? Tracer.api_port api)
  end.

(** Lines 86-94 of [_wrap_request], and again lines 149-157 of
    [_wrap_putrequest]: call the wrapped method; on an [Exception] record
    it on the attached span, finish the span and re-raise. *)
Definition call_recording_errors (func : Func) (args : list pyval)
    (kwargs : gmap string pyval) : M World pyval :=
  try_except_Exception (func args kwargs)
    (fun exc =>
       span <- getattr "_datadog_span" PNone ;;
       when (truthy span)
         (span_method span "set_exc_info" (Span.set_exc_info exc) ;;;
          span_method span "finish" Span.finish) ;;;
       raise exc).

(** The [except] handler of both instrumentation blocks (lines 80-84 and
    141-147): log, and finish the attached span if there is one. *)
Definition finish_attached_span (msg : string) : M World unit :=
  log_debug msg ;;;
  span <- getattr "_datadog_span" PNone ;;
  when (truthy span) (span_method span "finish" Span.finish).

(** The [try] block of [_wrap_request], lines 67-79. *)
Definition request_try_block (cfg : option IntegrationConfig) : M (Frame * World) unit :=
  span <- liftW (tracer_trace span_name (SpanTypes_HTTP E)) ;;
  liftW (setattr "_datadog_span" span) ;;;
  when (cfg_get_distributed_tracing cfg)
    (fr <- get_frame ;;
     if (3 <? length (f_args fr))%nat then
       headers <- py_index (f_args fr) 3 ;;
       ctx <- liftW (span_context span) ;;
       headers' <- liftW (propagator_inject ctx headers) ;;
       put_frame {| f_args := <[3%nat := headers']> (f_args fr); f_kwargs := f_kwargs fr |}
     else
       let sd := setdefault "headers" (PDict ∅) (f_kwargs fr) in
       put_frame {| f_args := f_args fr; f_kwargs := fst sd |} ;;;
       ctx <- liftW (span_context span) ;;
       headers' <- liftW (propagator_inject ctx (snd sd)) ;;
       put_frame {| f_args := f_args fr; f_kwargs := <["headers" := headers']> (fst sd) |}).

(** Lines 65-84 of [_wrap_request]: the configuration lookup and the
    guarded instrumentation block.  The result is [args] and [kwargs] as
    the block leaves them. *)
Definition request_instrumentation (args : list pyval) (kwargs : gmap string pyval)
  : M World Frame :=
  cfg <- config_get_from ;;
  with_frame {| f_args := args; f_kwargs := kwargs |}
    (try_except_Exception (request_try_block cfg)
       (fun _ => liftW (finish_attached_span "error configuring request"))).

(** [_wrap_request], lines 59-94. *)
Definition _wrap_request (func : Func) (args : list pyval) (kwargs : gmap string pyval)
  : M World pyval :=
  pin <- Pin_get_from ;;
  inst <- get_instance ;;
  if should_skip_request pin inst then func args kwargs
  else
    fr <- request_instrumentation args kwargs ;;
    call_recording_errors func (f_args fr) (f_kwargs fr).

(** The [try] block of [_wrap_putrequest], lines 103-140. *)
Definition putrequest_try_block (args : list pyval) : M World unit :=
  has <- hasattr "_datadog_span" ;;
  span <- (if has : bool then getattr_strict "_datadog_span"
           else
             span <- tracer_trace span_name (SpanTypes_HTTP E) ;;
             setattr "_datadog_span" span ;;;
             ret span) ;;
  mp <- unpack2 (take 2 args) ;;
  inst <- get_instance ;;
  let scheme := if is_HTTPSConnection inst then "https" else "http" in
  let port0 := ":" +:+ pretty (port inst) in
  let port1 :=
    if (String.eqb scheme "http" && (port inst =? 80))
       || (String.eqb scheme "https" && (port inst =? 443))
    then "" else port0 in
  let url := scheme +:+ "://" +:+ host inst +:+ port1 +:+ py_str (snd mp) in
  parsed <- lift_outcome (urlparse E url) ;;
  let sanitized_url :=
    urlunparse E (pr_scheme parsed) (pr_netloc parsed) (pr_path parsed)
               (pr_params parsed) None (pr_fragment parsed) in
  span_set_tag span (URL E) (TStr sanitized_url) ;;;
  span_set_tag span (METHOD E) (tag_of (fst mp)) ;;;
  when (trace_query_string (config_httplib E))
       (span_set_tag span (QUERY_STRING E) (TStr (pr_query parsed))) ;;;
  span_set_tag span (ANALYTICS_SAMPLE_RATE_KEY E) (analytics_sample_rate (config_httplib E)).

(** Lines 103-147 of [_wrap_putrequest]: the guarded instrumentation
    block. *)
Definition putrequest_instrumentation (args : list pyval) : M World unit :=
  try_except_Exception (putrequest_try_block args)
    (fun _ => finish_attached_span "error applying request tags").

(** [_wrap_putrequest], lines 97-157. *)
Definition _wrap_putrequest (func : Func) (args : list pyval) (kwargs : gmap string pyval)
  : M World pyval :=
  pin <- Pin_get_from ;;
  inst <- get_instance ;;
  if should_skip_request pin inst then func args kwargs
  else
    putrequest_instrumentation args ;;;
    call_recording_errors func args kwargs.

(** [_wrap_putheader], lines 160-165. *)
Definition _wrap_putheader (func : Func) (args : list pyval) (kwargs : gmap string pyval)
  : M World pyval :=
  span <- getattr "_datadog_span" PNone ;;
  when (truthy span)
    (hd <- header_dict args ;;
     store_request_headers hd span (config_httplib E)) ;;;
  func args kwargs.

End Wrappers.

(** ** [patch()] and [unpatch()] *)

(** The five wrapper functions, as [wrapt.FunctionWrapper] stores them. *)
Inductive wrapper := W_init | W_getresponse | W_request | W_putrequest | W_putheader.

(** What a method slot of the class [HTTPConnection] holds: the library's
    own function, or a [wrapt.FunctionWrapper(wrapped, wrapper)]. *)
Inductive method :=
  | Original (name : string)
  | FunctionWrapper (wrapped : method) (w : wrapper).

(** The module [httplib] as the patch sees it: its attribute
    [__datadog_patch] (absent until first set) and the five patched slots of
    [httplib.HTTPConnection]. *)
Record httplib := {
  __datadog_patch : option bool;
  HTTPConnection___init__ : method;
  HTTPConnection_getresponse : method;
  HTTPConnection_request : method;
  HTTPConnection_putrequest : method;
  HTTPConnection_putheader : method
}.

(** The module as imported, before any patching. *)
Definition httplib_imported : httplib :=
  {| __datadog_patch := None;
     HTTPConnection___init__ := Original "__init__";
     HTTPConnection_getresponse := Original "getresponse";
     HTTPConnection_request := Original "request";
     HTTPConnection_putrequest := Original "putrequest";
     HTTPConnection_putheader := Original "putheader" |}.

(** [patch()], lines 177-193. *)
Definition patch (m : httplib) : httplib :=
  if default false (__datadog_patch m) then m
  else
    {| __datadog_patch := Some true;
       HTTPConnection___init__ := FunctionWrapper (HTTPConnection___init__ m) W_init;
       HTTPConnection_getresponse := FunctionWrapper (HTTPConnection_getresponse m) W_getresponse;
       HTTPConnection_request := FunctionWrapper (HTTPConnection_request m) W_request;
       HTTPConnection_putrequest := FunctionWrapper (HTTPConnection_putrequest m) W_putrequest;
       HTTPConnection_putheader := FunctionWrapper (HTTPConnection_putheader m) W_putheader |}.

(** Modelled from the spec: [unwrap] of [ddtrace.utils.wrappers] (imported
    as [_u]), which is not among the sources.  The glossary has unpatching
    "remove runtime interception of third-party methods": a slot holding a
    wrapper gets the wrapped method back, any other slot is left alone. *)
Definition _u (slot : method) : method :=
  match slot with
  | FunctionWrapper wrapped _ => wrapped
  | Original _ => slot
  end.

(** [unpatch()], lines 196-206. *)
Definition unpatch (m : httplib) : httplib :=
  if negb (default false (__datadog_patch m)) then m
  else
    {| __datadog_patch := Some false;
       HTTPConnection___init__ := _u (HTTPConnection___init__ m);
       HTTPConnection_getresponse := _u (HTTPConnection_getresponse m);
       HTTPConnection_request := _u (HTTPConnection_request m);
       HTTPConnection_putrequest := _u (HTTPConnection_putrequest m);
       HTTPConnection_putheader := _u (HTTPConnection_putheader m) |}.

(** Calling what a slot holds: [wrapt] calls the wrapper with the wrapped
    method as [func]; [orig] gives the library's own functions. *)
Definition wrapper_function (E : Env) (w : wrapper) : Func -> Func :=
  match w with
  | W_init => _wrap_init E
  | W_getresponse => _wrap_getresponse E
  | W_request => _wrap_request E
  | W_putrequest => _wrap_putrequest E
  | W_putheader => _wrap_putheader E
  end.

Fixpoint invoke (E : Env) (orig : string -> Func) (m : method) : Func :=
  match m with
  | Original name => orig name
  | FunctionWrapper wrapped w => wrapper_function E w (invoke E orig wrapped)
  end.

(** The states of the module that calls of [patch()] and [unpatch()] reach. *)
Inductive reachable : httplib -> Prop :=
  | reach_import : reachable httplib_imported
  | reach_patch m : reachable m -> reachable (patch m)
  | reach_unpatch m : reachable m -> reachable (unpatch m).

(** ** The default of the [distributed_tracing] toggle *)

(** Modelled from the spec: [get_env] and [asbool] of
    [ddtrace.utils.formats], not among the sources.  [get_env] gives the
    value of the integration's environment variable, or [default] when it
    is unset; [asbool] keeps a boolean and reads a string through
    [str_true]. *)
Definition get_env (environ : option string) (dflt : pyval) : pyval :=
  match environ with
  | Some s => PStr s
  | None => dflt
  end.

Definition asbool (str_true : string -> bool) (v : pyval) : bool :=
  match v with
  | PBool b => b
  | PStr s => str_true s
  | _ => false
  end.

(** [config._add('httplib', {'distributed_tracing': asbool(get_env(...,
    default=False))})], lines 23-25: the toggle of the configuration that
    [_wrap_init] pins on every connection. *)
Definition config_add_httplib (str_true : string -> bool) (environ : option string)
    (base : IntegrationConfig) : IntegrationConfig :=
  {| distributed_tracing := asbool str_true (get_env environ (PBool false));
     trace_query_string := trace_query_string base;
     analytics_sample_rate := analytics_sample_rate base;
     header_is_traced := header_is_traced base |}.

(** ** Example objects

    A tracer whose agent listens on [localhost:8126], a connection to
    [example.com:80] pinned to it, and wrapped methods that return or raise
    without touching the tracing state. *)

Definition example_config (dt : bool) : IntegrationConfig :=
  {| distributed_tracing := dt;
     trace_query_string := false;
     analytics_sample_rate := TNone;
     header_is_traced := fun _ => false |}.

Definition example_tracer : Tracer.t := Tracer.mk true "localhost" 8126.

Definition example_env (dt : bool) : Env :=
  {| PY2 := false;
     config_httplib := example_config dt;
     global_tracer := example_tracer;
     faults := fun _ => None;
     fresh_ids := fun n => (7, Z.of_nat n);
     urlparse := fun u =>
       Return {| pr_scheme := "http"; pr_netloc := "example.com"; pr_path := "/";
                 pr_params := ""; pr_query := ""; pr_fragment := "" |};
     urlunparse := fun scheme netloc path _ _ _ => scheme +:+ "://" +:+ netloc +:+ path;
     repr_object := fun _ => "<object>";
     SpanTypes_HTTP := "http";
     STATUS_CODE := "http.status_code";
     URL := "http.url";
     METHOD := "http.method";
     QUERY_STRING := "http.query.string";
     ANALYTICS_SAMPLE_RATE_KEY := "_dd1.sr.eausr";
     HTTP_HEADER_TRACE_ID := "x-datadog-trace-id";
     HTTP_HEADER_PARENT_ID := "x-datadog-parent-id";
     header_tag := fun request h =>
       (if request then "http.request.headers." else "http.response.headers.") +:+ h |}.

Definition example_connection (h : string) (p : Z) (dt : bool) : HTTPConnection :=
  {| host := h; port := p; is_HTTPSConnection := false;
     datadog_pin := Some (Pin.mk "httplib" None example_tracer (example_config dt));
     attrs := ∅ |}.

(** A fresh pinned connection to [example.com:80]; no span exists yet. *)
Definition example_world (dt : bool) : World :=
  {| spans := []; instance := example_connection "example.com" 80 dt; debug_log := [] |}.

(** The tracer's own connection to its agent. *)
Definition agent_world : World :=
  {| spans := []; instance := example_connection "localhost" 8126 false; debug_log := [] |}.

Definition returns (v : pyval) : Func := fun _ _ => ret v.
Definition raises (e : exn) : Func := fun _ _ => raise e.

(** A wrapped method that hands back the [headers] it was called with. *)
Definition echo_headers : Func :=
  fun args kwargs =>
    ret (default (default PNone (kwargs !! "headers")) (args !! 3%nat)).

Definition socket_timeout : exn := Exn true "socket.timeout" "timed out".

(** ** Vocabulary of the properties *)

(** The slot of [HTTPConnection] that a wrapper is installed in. *)
Definition slot (m : httplib) (w : wrapper) : method :=
  match w with
  | W_init => HTTPConnection___init__ m
  | W_getresponse => HTTPConnection_getresponse m
  | W_request => HTTPConnection_request m
  | W_putrequest => HTTPConnection_putrequest m
  | W_putheader => HTTPConnection_putheader m
  end.

Definition slot_name (w : wrapper) : string :=
  match w with
  | W_init => "__init__"
  | W_getresponse => "getresponse"
  | W_request => "request"
  | W_putrequest => "putrequest"
  | W_putheader => "putheader"
  end.

(** The state after [span.set_exc_info( *exc_info)] and [span.finish()] on
    the span with reference [r]; nothing else changes. *)
Definition exception_recorded (e : exn) (r : nat) (w : World) : World :=
  set_spans (alter Span.finish r) (set_spans (alter (Span.set_exc_info e) r) w).

(** The state of the example connection once [request] has attached the
    span 0. *)
Definition example_world_in_request : World :=
  {| spans := [Span.mk "http.client.request" "http" 7 0 ∅ 0 None 0%nat];
     instance :=
       {| host := "example.com"; port := 80; is_HTTPSConnection := false;
          datadog_pin := Some (Pin.mk "httplib" None example_tracer (example_config false));
          attrs := {["_datadog_span" := PSpan 0]} |};
     debug_log := [] |}.

(** [preserves P m]: running [m] in a state satisfying [P] leaves a state
    satisfying [P], whatever the outcome. *)
Definition preserves {S A} (P : S → Prop) (m : M S A) : Prop :=
  ∀ s, P s → P (snd (m s)).





(** The [headers] argument of a [request] call: the fourth positional
    argument when there is one, the keyword argument otherwise. *)
Definition call_headers (fr : Frame) : option pyval :=
  if (3 <? length (f_args fr))%nat then f_args fr !! 3%nat
  else f_kwargs fr !! "headers".

(** The span that [tracer.trace] makes in the state [w]. *)
Definition new_span (E : Env) (w : World) : Span.t :=
  Span.mk (span_name E) (SpanTypes_HTTP E)
          (fst (fresh_ids E (length (spans w)))) (snd (fresh_ids E (length (spans w))))
          ∅ 0 None 0%nat.

Definition span_attached (E : Env) (w : World) : World :=
  set_attrs (insert "_datadog_span" (PSpan (length (spans w))))
    (set_spans (λ l, (l ++ [new_span E w])%list) w).

(** A [putheader] that reports the header it is asked to send. *)
Definition sends_header : Func :=
  fun args _ =>
    ret (match args with
         | PStr h :: PStr v :: _ => PDict {[h := v]}
         | _ => PNone
         end).

(** The environment [E] in which [store_request_headers] fails with [e]. *)
Definition failing_store_request_headers (E : Env) (e : exn) : Env :=
  {| PY2 := PY2 E; config_httplib := config_httplib E; global_tracer := global_tracer E;
     faults := fun op => match op with StoreRequestHeaders => Some e | _ => faults E op end;
     fresh_ids := fresh_ids E; urlparse := urlparse E; urlunparse := urlunparse E;
     repr_object := repr_object E; SpanTypes_HTTP := SpanTypes_HTTP E;
     STATUS_CODE := STATUS_CODE E; URL := URL E; METHOD := METHOD E;
     QUERY_STRING := QUERY_STRING E;
     ANALYTICS_SAMPLE_RATE_KEY := ANALYTICS_SAMPLE_RATE_KEY E;
     HTTP_HEADER_TRACE_ID := HTTP_HEADER_TRACE_ID E;
     HTTP_HEADER_PARENT_ID := HTTP_HEADER_PARENT_ID E;
     header_tag := header_tag E |}.

(** What the properties below read of a span. *)
Definition span_summary (s : Span.t) : Z * option exn * nat :=
  (Span.error s, Span.exc_info s, Span.finish_calls s).

(** The tags that [store_request_headers] (or [store_response_headers])
    sets on a span for the headers [hs]. *)
Fixpoint header_tags (E : Env) (request : bool) (cfg : IntegrationConfig)
    (hs : list (string * pyval)) (s : Span.t) : Span.t :=
  match hs with
  | [] => s
  | kv :: hs' =>
      header_tags E request cfg hs'
        (if header_is_traced cfg (fst kv)
         then Span.set_tag (header_tag E request (fst kv)) (tag_of (snd kv)) s
         else s)
  end.

(** What [_wrap_getresponse] does to the attached span when the wrapped
    call returned a response with status [st] and headers [hs]. *)
Definition response_recorded (E : Env) (st : Z) (hs : list (string * string))
    (s : Span.t) : Span.t :=
  Span.finish
    (header_tags E false (config_httplib E) (dict (prod_map id PStr <$> hs))
       (Span.set_error (if 500 <=? st then 1 else 0)
          (Span.set_tag (STATUS_CODE E) (TInt st) s))).

(** [raises_only_Exceptions m]: whatever [m] raises is an instance of
    [Exception]. *)
Definition raises_only_Exceptions {S A} (m : M S A) : Prop :=
  ∀ s e s', m s = (Raise e, s') → exn_is_Exception e = true.

(** [always_returns P m]: from a state satisfying [P], [m] does not raise. *)
Definition always_returns {S A} (P : S → Prop) (m : M S A) : Prop :=
  ∀ s, P s → ∃ a, fst (m s) = Return a.

(** The failures of the tracing library and of [urlparse] are instances of
    [Exception]. *)
Definition faults_are_Exceptions (E : Env) : Prop :=
  (∀ op e, faults E op = Some e → exn_is_Exception e = true) ∧
  (∀ u e, urlparse E u = Raise e → exn_is_Exception e = true).

(** What [_datadog_span] holds, if set and true, is a span. *)
Definition slot_sane (w : World) : Prop :=
  ∀ v, attrs (instance w) !! "_datadog_span" = Some v → truthy v = true →
       ∃ r, v = PSpan r.

(** What [HTTPConnection.request] of the standard library does as far as the
    patch sees it: it calls [self.putrequest(method, url)], that is, the
    patched slot (the comment at line 105, "Reuse an existing span set in
    _wrap_request", relies on it).  Headers and body are left out. *)
Definition library_request (putrequest : Func) : Func :=
  fun args kwargs => putrequest (take 2 args) ∅.

(** The URL that [_wrap_putrequest] builds for a request to [path]:
    [scheme://host[:port]path], the port left out when it is the scheme's
    default. *)
Definition request_url (E : Env) (c : HTTPConnection) (path : pyval) : string :=
  if is_HTTPSConnection c then
    "https://" +:+ host c
      +:+ (if port c =? 443 then "" else ":" +:+ pretty (port c)) +:+ py_str E path
  else
    "http://" +:+ host c
      +:+ (if port c =? 80 then "" else ":" +:+ pretty (port c)) +:+ py_str E path.

(** The tags that [_wrap_putrequest] sets for a request with method
    [method] whose URL parsed as [pr]. *)
Definition request_tags (E : Env) (method : pyval) (pr : ParseResult) (s : Span.t) : Span.t :=
  Span.set_tag (ANALYTICS_SAMPLE_RATE_KEY E) (analytics_sample_rate (config_httplib E))
    ((if trace_query_string (config_httplib E)
      then Span.set_tag (QUERY_STRING E) (TStr (pr_query pr))
      else id)
       (Span.set_tag (METHOD E) (tag_of method)
          (Span.set_tag (URL E)
             (TStr (urlunparse E (pr_scheme pr) (pr_netloc pr) (pr_path pr)
                      (pr_params pr) None (pr_fragment pr))) s))).

(** The environment [E] with other failures of the tracing library. *)
Definition with_faults (E : Env) (f : instr_op → option exn) : Env :=
  {| PY2 := PY2 E; config_httplib := config_httplib E; global_tracer := global_tracer E;
     faults := f;
     fresh_ids := fresh_ids E; urlparse := urlparse E; urlunparse := urlunparse E;
     repr_object := repr_object E; SpanTypes_HTTP := SpanTypes_HTTP E;
     STATUS_CODE := STATUS_CODE E; URL := URL E; METHOD := METHOD E;
     QUERY_STRING := QUERY_STRING E;
     ANALYTICS_SAMPLE_RATE_KEY := ANALYTICS_SAMPLE_RATE_KEY E;
     HTTP_HEADER_TRACE_ID := HTTP_HEADER_TRACE_ID E;
     HTTP_HEADER_PARENT_ID := HTTP_HEADER_PARENT_ID E;
     header_tag := header_tag E |}.

(** Every [span.set_tag] fails with [e]. *)
Definition failing_set_tag (e : exn) (op : instr_op) : option exn :=
  match op with
  | SpanSetTag _ => Some e
  | _ => None
  end.

(** [tracer.trace] fails with [e]. *)
Definition failing_trace (e : exn) (op : instr_op) : option exn :=
  match op with
  | TracerTrace => Some e
  | _ => None
  end.

(** An update of a span that does not reopen it: what [set_tag],
    [set_exc_info], [finish()] and an assignment to [error] are. *)
Definition keeps_closed (f : Span.t → Span.t) : Prop :=
  ∀ s, Span.is_open (f s) = true → Span.is_open s = true.







(** [_datadog_span] is set, or [tracer.trace] fails. *)
Definition span_set_or_no_tracer (E : Env) (w : World) : Prop :=
  is_Some (attrs (instance w) !! "_datadog_span") ∨ is_Some (faults E TracerTrace).

(** The environment [E] with another configuration of the integration. *)
Definition with_config (E : Env) (cfg : IntegrationConfig) : Env :=
  {| PY2 := PY2 E; config_httplib := cfg; global_tracer := global_tracer E;
     faults := faults E;
     fresh_ids := fresh_ids E; urlparse := urlparse E; urlunparse := urlunparse E;
     repr_object := repr_object E; SpanTypes_HTTP := SpanTypes_HTTP E;
     STATUS_CODE := STATUS_CODE E; URL := URL E; METHOD := METHOD E;
     QUERY_STRING := QUERY_STRING E;
     ANALYTICS_SAMPLE_RATE_KEY := ANALYTICS_SAMPLE_RATE_KEY E;
     HTTP_HEADER_TRACE_ID := HTTP_HEADER_TRACE_ID E;
     HTTP_HEADER_PARENT_ID := HTTP_HEADER_PARENT_ID E;
     header_tag := header_tag E |}.

(** The example configuration, set to trace the header [h]. *)
Definition example_config_tracing (h : string) : IntegrationConfig :=
  {| distributed_tracing := false;
     trace_query_string := false;
     analytics_sample_rate := TNone;
     header_is_traced := String.eqb h |}.

(** * Properties *)

(** ** Patching and unpatching *)

(** C1: [patch()] and [unpatch()] are idempotent.  In every state of the
    module, a second [patch()] leaves the five method slots and the
    [__datadog_patch] flag as the first one did, and a second [unpatch()]
    leaves them as the first [unpatch()] did. *)
Theorem patch_unpatch_idempotent (m : httplib) :
  patch (patch m) = patch m ∧ unpatch (unpatch m) = unpatch m.
Proof.
  unfold patch, unpatch.
  destruct m as [[[]|] i g r p h]; simpl; split; reflexivity.
Qed.

(** Reachable states are the imported module with the flag unset or false,
    or exactly one layer of wrappers with the flag true. *)
Lemma reachable_shape (m : httplib) :
  reachable m →
  (default false (__datadog_patch m) = false ∧
   ∀ w, slot m w = Original (slot_name w)) ∨
  (__datadog_patch m = Some true ∧
   ∀ w, slot m w = FunctionWrapper (Original (slot_name w)) w).
Proof.
  induction 1 as [|m _ IH|m _ IH].
  - left. split; [reflexivity|]. intros []; reflexivity.
  - destruct IH as [[Hf Hs]|[Hf Hs]].
    + right. unfold patch. rewrite Hf. split; [reflexivity|].
      intros w. pose proof (Hs w) as Hw. destruct w; simpl in *; by rewrite Hw.
    + right. unfold patch. rewrite Hf. simpl. by split.
  - destruct IH as [[Hf Hs]|[Hf Hs]].
    + left. unfold unpatch. rewrite Hf. simpl. by split.
    + left. unfold unpatch. rewrite Hf. simpl. split; [reflexivity|].
      intros w. pose proof (Hs w) as Hw. destruct w; simpl in *; by rewrite Hw.
Qed.

Lemma unpatched_slots_original (m : httplib) (w : wrapper) :
  reachable m → slot (unpatch m) w = Original (slot_name w).
Proof.
  intros Hr. destruct (reachable_shape _ (reach_unpatch _ Hr)) as [[_ Hs]|[Hf _]].
  - apply Hs.
  - exfalso. unfold unpatch in Hf.
    destruct (default false (__datadog_patch m)) eqn:Hd; simpl in Hf.
    + discriminate.
    + rewrite Hf in Hd. discriminate.
Qed.

(** C8: after [unpatch()], a call through a previously patched method is a
    call of the library's own method and nothing else, so it produces no
    span: whenever the library's methods leave the tracer's spans alone,
    the spans after the call are those before it. *)
Theorem unpatched_calls_make_no_spans (E : Env) (orig : string -> Func)
    (m : httplib) (w : wrapper) (args : list pyval) (kwargs : gmap string pyval)
    (st : World) :
  reachable m →
  (∀ name a k st', spans (snd (orig name a k st')) = spans st') →
  invoke E orig (slot (unpatch m) w) = orig (slot_name w) ∧
  spans (snd (invoke E orig (slot (unpatch m) w) args kwargs st)) = spans st.
Proof.
  intros Hr Horig. rewrite (unpatched_slots_original m w Hr). simpl.
  split; [reflexivity|apply Horig].
Qed.

(** After [patch()] then [unpatch()], [request] on the example connection
    makes no span. *)
Lemma unpatched_calls_make_no_spans_witness :
  reachable (patch httplib_imported) ∧
  slot (patch httplib_imported) W_request = FunctionWrapper (Original "request") W_request ∧
  spans (snd (invoke (example_env false) (fun _ => returns PNone)
                (slot (unpatch (patch httplib_imported)) W_request)
                [PStr "GET"; PStr "/"] ∅ (example_world false))) = [].
Proof.
  split; [apply reach_patch, reach_import|]. split; [reflexivity|].
  apply (unpatched_calls_make_no_spans (example_env false) (fun _ => returns PNone)
           (patch httplib_imported) W_request [PStr "GET"; PStr "/"] ∅ (example_world false)).
  - apply reach_patch, reach_import.
  - reflexivity.
Defined.

(** ** Requests to the tracer's own agent *)

Lemma should_skip_agent (p : Pin.t) (c : HTTPConnection) :
  host c = Tracer.api_hostname (Pin.tracer p) →
  port c = Tracer.api_port (Pin.tracer p) →
  should_skip_request (Some p) c = true.
Proof.
  intros Hh Hp. unfold should_skip_request.
  destruct (negb (Pin.enabled p)); [reflexivity|].
  rewrite Hh, Hp, Z.eqb_refl, andb_true_r.
  by apply String.eqb_eq.
Qed.

(** C10: on a connection whose host and port are those of the agent API of
    the pinned tracer's writer, [request] and [putrequest] are forwarded to
    the original method with the same arguments and nothing else happens:
    the wrapper's outcome and the state it leaves are those of the original
    call, so no span is created. *)
Theorem agent_requests_not_traced (E : Env) (func : Func) (args : list pyval)
    (kwargs : gmap string pyval) (w : World) (p : Pin.t) :
  datadog_pin (instance w) = Some p →
  host (instance w) = Tracer.api_hostname (Pin.tracer p) →
  port (instance w) = Tracer.api_port (Pin.tracer p) →
  should_skip_request (Some p) (instance w) = true ∧
  _wrap_request E func args kwargs w = func args kwargs w ∧
  _wrap_putrequest E func args kwargs w = func args kwargs w.
Proof.
  intros Hpin Hh Hp.
  pose proof (should_skip_agent p (instance w) Hh Hp) as Hskip.
  split; [exact Hskip|].
  unfold _wrap_request, _wrap_putrequest, bind, Pin_get_from, get_instance.
  rewrite Hpin, Hskip. by split.
Qed.

(** The tracer sending its own traces to [localhost:8126]. *)
Lemma agent_requests_not_traced_witness :
  _wrap_request (example_env false) (returns PNone) [PStr "PUT"; PStr "/v0.4/traces"] ∅ agent_world
  = (Return PNone, agent_world).
Proof.
  pose proof (agent_requests_not_traced (example_env false) (returns PNone)
                [PStr "PUT"; PStr "/v0.4/traces"] ∅ agent_world
                (Pin.mk "httplib" None example_tracer (example_config false))
                eq_refl eq_refl eq_refl) as [_ [H _]].
  exact H.
Defined.

(** ** Exceptions of the wrapped call *)

Lemma exception_recorded_lookup (e : exn) (r : nat) (w : World) (s : Span.t) :
  spans w !! r = Some s →
  spans (exception_recorded e r w) !! r = Some (Span.finish (Span.set_exc_info e s)).
Proof.
  intros Hs. unfold exception_recorded, set_spans. simpl.
  rewrite !list_lookup_alter_eq, Hs. reflexivity.
Qed.

Lemma call_recording_errors_raise (func : Func) (args : list pyval)
    (kwargs : gmap string pyval) (w w' : World) (e : exn) (r : nat) :
  func args kwargs w = (Raise e, w') →
  exn_is_Exception e = true →
  attrs (instance w') !! "_datadog_span" = Some (PSpan r) →
  call_recording_errors func args kwargs w = (Raise e, exception_recorded e r w').
Proof.
  intros Hf He Ha.
  unfold call_recording_errors, try_except_Exception. rewrite Hf, He.
  unfold bind, getattr. rewrite Ha. reflexivity.
Qed.

Lemma call_recording_errors_return (func : Func) (args : list pyval)
    (kwargs : gmap string pyval) (w w' : World) (v : pyval) :
  func args kwargs w = (Return v, w') →
  call_recording_errors func args kwargs w = (Return v, w').
Proof.
  intros Hf. unfold call_recording_errors, try_except_Exception. by rewrite Hf.
Qed.

Lemma _wrap_request_traced (E : Env) (func : Func) (args : list pyval)
    (kwargs : gmap string pyval) (w : World) :
  should_skip_request (datadog_pin (instance w)) (instance w) = false →
  _wrap_request E func args kwargs w =
  (fr <- request_instrumentation E args kwargs ;;
   call_recording_errors func (f_args fr) (f_kwargs fr)) w.
Proof.
  intros Hs. unfold _wrap_request at 1. unfold bind at 1 2. simpl. by rewrite Hs.
Qed.

Lemma _wrap_putrequest_traced (E : Env) (func : Func) (args : list pyval)
    (kwargs : gmap string pyval) (w : World) :
  should_skip_request (datadog_pin (instance w)) (instance w) = false →
  _wrap_putrequest E func args kwargs w =
  (putrequest_instrumentation E args ;;; call_recording_errors func args kwargs) w.
Proof.
  intros Hs. unfold _wrap_putrequest at 1. unfold bind at 1 2. simpl. by rewrite Hs.
Qed.

(** C4: in a traced [request] or [putrequest] call (not skipped, the
    instrumentation block done, leaving the arguments [fr] and the state
    [w1]) whose wrapped call raises [e], an instance of [Exception], the
    span attached to the connection gets the exception recorded on it by
    [set_exc_info], which sets its error flag, [finish()] is called on it
    once, and the wrapper raises [e] itself.  Nothing else changes in the
    state the wrapped call left. *)
Theorem wrapped_exception_recorded_and_reraised (E : Env) (func : Func)
    (args : list pyval) (kwargs : gmap string pyval) (w w1 w2 : World)
    (fr : Frame) (e : exn) (r : nat) (s : Span.t) :
  should_skip_request (datadog_pin (instance w)) (instance w) = false →
  func (f_args fr) (f_kwargs fr) w1 = (Raise e, w2) →
  exn_is_Exception e = true →
  attrs (instance w2) !! "_datadog_span" = Some (PSpan r) →
  spans w2 !! r = Some s →
  let w3 := exception_recorded e r w2 in
  (∃ s3, spans w3 !! r = Some s3 ∧ Span.exc_info s3 = Some e ∧ Span.error s3 = 1 ∧
         Span.finish_calls s3 = S (Span.finish_calls s)) ∧
  (request_instrumentation E args kwargs w = (Return fr, w1) →
   _wrap_request E func args kwargs w = (Raise e, w3)) ∧
  (putrequest_instrumentation E args w = (Return tt, w1) →
   fr = {| f_args := args; f_kwargs := kwargs |} →
   _wrap_putrequest E func args kwargs w = (Raise e, w3)).
Proof.
  intros Hskip Hf He Ha Hs w3. split; [|split].
  - exists (Span.finish (Span.set_exc_info e s)).
    split; [by apply exception_recorded_lookup|]. by simpl.
  - intros Hi. rewrite _wrap_request_traced by done.
    unfold bind. rewrite Hi. by apply call_recording_errors_raise.
  - intros Hi ->. simpl in Hf. rewrite _wrap_putrequest_traced by done.
    unfold bind. rewrite Hi. by apply call_recording_errors_raise.
Qed.

(** A socket timeout in [request] and in [putrequest] on the example
    connection. *)
Lemma wrapped_exception_recorded_and_reraised_witness :
  request_instrumentation (example_env false) [PStr "GET"; PStr "/"] ∅ (example_world false)
  = (Return {| f_args := [PStr "GET"; PStr "/"]; f_kwargs := ∅ |}, example_world_in_request) ∧
  _wrap_request (example_env false) (raises socket_timeout) [PStr "GET"; PStr "/"] ∅
    (example_world false)
  = (Raise socket_timeout, exception_recorded socket_timeout 0 example_world_in_request) ∧
  _wrap_putrequest (example_env false) (raises socket_timeout) [PStr "GET"; PStr "/"] ∅
    example_world_in_request
  = (Raise socket_timeout,
     exception_recorded socket_timeout 0
       (snd (putrequest_instrumentation (example_env false) [PStr "GET"; PStr "/"]
               example_world_in_request))).
Proof.
  assert (Hi : request_instrumentation (example_env false) [PStr "GET"; PStr "/"] ∅
                 (example_world false)
               = (Return {| f_args := [PStr "GET"; PStr "/"]; f_kwargs := ∅ |},
                  example_world_in_request)) by (vm_compute; reflexivity).
  split; [exact Hi|]. split.
  - pose proof (wrapped_exception_recorded_and_reraised (example_env false)
                  (raises socket_timeout) [PStr "GET"; PStr "/"] ∅
                  (example_world false) example_world_in_request example_world_in_request
                  {| f_args := [PStr "GET"; PStr "/"]; f_kwargs := ∅ |}
                  socket_timeout 0 (Span.mk "http.client.request" "http" 7 0 ∅ 0 None 0%nat)
                  eq_refl eq_refl eq_refl eq_refl eq_refl) as [_ [H _]].
    exact (H Hi).
  - set (w1 := snd (putrequest_instrumentation (example_env false) [PStr "GET"; PStr "/"]
                      example_world_in_request)).
    assert (Hp : putrequest_instrumentation (example_env false) [PStr "GET"; PStr "/"]
                   example_world_in_request = (Return tt, w1)) by (vm_compute; reflexivity).
    destruct (spans w1 !! 0%nat) as [s1|] eqn:Hs1; [|vm_compute in Hs1; discriminate].
    pose proof (wrapped_exception_recorded_and_reraised (example_env false)
                  (raises socket_timeout) [PStr "GET"; PStr "/"] ∅
                  example_world_in_request w1 w1
                  {| f_args := [PStr "GET"; PStr "/"]; f_kwargs := ∅ |}
                  socket_timeout 0 s1
                  eq_refl eq_refl eq_refl eq_refl Hs1) as [_ [_ H]].
    exact (H Hp eq_refl).
Defined.

(** C4 as stated fails: the two handlers are [except Exception], and an
    exception that is not an instance of [Exception] passes them.  A
    [KeyboardInterrupt] raised by the wrapped call of a traced [request] on
    the example connection reaches the caller, and the span made for the
    request is left without the exception, with its error flag unset, not
    finished and still attached. *)
Lemma keyboard_interrupt_not_recorded :
  let r := _wrap_request (example_env false) (raises (Exn false "KeyboardInterrupt" ""))
             [PStr "GET"; PStr "/"] ∅ (example_world false) in
  fst r = Raise (Exn false "KeyboardInterrupt" "") ∧
  span_summary <$> spans (snd r) = [(0, None, 0%nat)] ∧
  attrs (instance (snd r)) !! "_datadog_span" = Some (PSpan 0).
Proof. vm_compute. repeat split; reflexivity. Qed.

(** ** State invariants through the monad *)

Section Preserves.
Context {S : Type} (P : S → Prop).

Lemma preserves_ret {A} (a : A) : preserves P (ret a).
Proof. by intros s Hs. Qed.

Lemma preserves_raise {A} (e : exn) : preserves P (@raise S A e).
Proof. by intros s Hs. Qed.

Lemma preserves_bind {A B} (m : M S A) (k : A → M S B) :
  preserves P m → (∀ a, preserves P (k a)) → preserves P (bind m k).
Proof.
  intros Hm Hk s Hs. unfold bind. specialize (Hm s Hs).
  destruct (m s) as [[a|e] s']; simpl in *; [by apply Hk|done].
Qed.

Lemma preserves_when (c : bool) (body : M S unit) :
  preserves P body → preserves P (when c body).
Proof. intros Hb. destruct c; [done|apply preserves_ret]. Qed.

Lemma preserves_if {A} (c : bool) (m1 m2 : M S A) :
  preserves P m1 → preserves P m2 → preserves P (if c then m1 else m2).
Proof. by destruct c. Qed.

Lemma preserves_try_except {A} (body : M S A) (handler : exn → M S A) :
  preserves P body → (∀ e, preserves P (handler e)) →
  preserves P (try_except_Exception body handler).
Proof.
  intros Hb Hh s Hs. unfold try_except_Exception. specialize (Hb s Hs).
  destruct (body s) as [[a|e] s']; simpl in *; [done|].
  destruct (exn_is_Exception e); [by apply Hh|done].
Qed.

Lemma preserves_try_return_finally {A} (body : M S A) (fin : option A → M S unit) :
  preserves P body → (∀ r, preserves P (fin r)) →
  preserves P (try_return_finally body fin).
Proof.
  intros Hb Hf s Hs. unfold try_return_finally. specialize (Hb s Hs).
  destruct (body s) as [[a|e] s']; simpl in *.
  - specialize (Hf (Some a) s' Hb). by destruct (fin (Some a) s') as [[|] ?].
  - specialize (Hf None s' Hb). by destruct (fin None s') as [[|] ?].
Qed.

Lemma preserves_for_each {A} (l : list A) (body : A → M S unit) :
  (∀ x, preserves P (body x)) → preserves P (for_each l body).
Proof.
  intros Hb. induction l as [|x l IH]; simpl.
  - apply preserves_ret.
  - apply preserves_bind; [apply Hb|by intros _].
Qed.

Lemma preserves_lift_outcome {A} (o : outcome A) : preserves P (lift_outcome o).
Proof. destruct o; [apply preserves_ret|apply preserves_raise]. Qed.

Lemma preserves_py_index (args : list pyval) (i : nat) : preserves P (py_index args i).
Proof. unfold py_index. destruct (args !! i); [apply preserves_ret|apply preserves_raise]. Qed.

Lemma preserves_unpack2 (t : list pyval) : preserves P (unpack2 t).
Proof.
  unfold unpack2. destruct t as [|a [|b [|c t]]];
    first [apply preserves_ret|apply preserves_raise].
Qed.

Lemma preserves_check_fault (E : Env) (op : instr_op) : preserves P (check_fault E op).
Proof. unfold check_fault. destruct (faults E op); [apply preserves_raise|apply preserves_ret]. Qed.

End Preserves.

(** A statement that does not change the state preserves everything. *)
Lemma preserves_read {S A} (P : S → Prop) (m : M S A) :
  (∀ s, snd (m s) = s) → preserves P m.
Proof. intros Hm s Hs. by rewrite Hm. Qed.

Lemma preserves_liftW {A} (P : World → Prop) (m : M World A) :
  preserves P m → preserves (λ s : Frame * World, P (snd s)) (liftW m).
Proof.
  intros Hm [fr w] Hs. unfold liftW. simpl in *. specialize (Hm w Hs).
  by destruct (m w).
Qed.

Lemma preserves_with_frame (P : World → Prop) (fr : Frame) (block : M (Frame * World) unit) :
  preserves (λ s : Frame * World, P (snd s)) block → preserves P (with_frame fr block).
Proof.
  intros Hb w Hw. unfold with_frame. specialize (Hb (fr, w) Hw).
  by destruct (block (fr, w)) as [[|] [??]].
Qed.

(** Invariants of the connection's attributes that survive what the
    wrappers do to them: attaching a span to [_datadog_span] and deleting
    that attribute. *)
Section AttributeInvariant.
Variable P : World → Prop.
Hypothesis P_attrs : ∀ w w', attrs (instance w') = attrs (instance w) → P w → P w'.
Hypothesis P_attach : ∀ w r, P w → P (set_attrs (insert "_datadog_span" (PSpan r)) w).
Hypothesis P_detach : ∀ w, P w → P (set_attrs (delete "_datadog_span") w).
Variable E : Env.

Lemma preserves_same_attrs {A} (m : M World A) :
  (∀ w, attrs (instance (snd (m w))) = attrs (instance w)) → preserves P m.
Proof. intros Hm w HP. by apply (P_attrs w). Qed.

Lemma preserves_attach (r : nat) : preserves P (setattr "_datadog_span" (PSpan r)).
Proof. intros w HP. by apply P_attach. Qed.

Lemma preserves_detach : preserves P (delattr "_datadog_span").
Proof.
  intros w HP. unfold delattr.
  destruct (attrs (instance w) !! "_datadog_span"); simpl; [by apply P_detach|done].
Qed.

Lemma preserves_span_method (span : pyval) (method : string) (f : Span.t → Span.t) :
  preserves P (span_method span method f).
Proof. destruct span; simpl; first [apply preserves_raise|by apply preserves_same_attrs]. Qed.

Lemma preserves_span_context (span : pyval) : preserves P (span_context span).
Proof.
  apply preserves_read. intros w. unfold span_context.
  destruct span; try done. by destruct (spans w !! ref).
Qed.

Lemma preserves_getattr_strict (name : string) : preserves P (getattr_strict name).
Proof.
  apply preserves_read. intros w. unfold getattr_strict.
  by destruct (attrs (instance w) !! name).
Qed.

Lemma preserves_resp_status (resp : pyval) : preserves P (resp_status resp).
Proof. destruct resp; first [apply preserves_raise|apply preserves_ret]. Qed.

Lemma preserves_resp_getheaders (resp : pyval) : preserves P (resp_getheaders resp).
Proof. destruct resp; first [apply preserves_raise|apply preserves_ret]. Qed.

(** [span = tracer.trace(...)] followed by code that uses the new span. *)
Lemma preserves_bind_trace {B} (name ty : string) (k : pyval → M World B) :
  (∀ r, preserves P (k (PSpan r))) → preserves P (bind (tracer_trace E name ty) k).
Proof.
  intros Hk w HP. unfold tracer_trace, check_fault, bind.
  destruct (faults E TracerTrace); simpl; [done|].
  apply Hk. by apply (P_attrs w).
Qed.

Lemma preserves_bind_trace_frame {B} (name ty : string) (k : pyval → M (Frame * World) B) :
  (∀ r, preserves (λ s : Frame * World, P (snd s)) (k (PSpan r))) →
  preserves (λ s : Frame * World, P (snd s)) (bind (liftW (tracer_trace E name ty)) k).
Proof.
  intros Hk [fr w] HP. unfold liftW, tracer_trace, check_fault, bind. simpl in *.
  destruct (faults E TracerTrace); simpl; [done|].
  apply Hk. simpl. by apply (P_attrs w).
Qed.

(** Structural steps of a preservation proof. *)
Ltac preserves_step :=
  lazymatch goal with
  | |- preserves _ (bind (tracer_trace _ _ _) _) => apply preserves_bind_trace; intros ?
  | |- preserves _ (bind (liftW (tracer_trace _ _ _)) _) =>
      apply preserves_bind_trace_frame; intros ?
  | |- preserves _ (bind _ _) => apply preserves_bind; [|intros ?]
  | |- preserves _ (ret _) => apply preserves_ret
  | |- preserves _ (raise _) => apply preserves_raise
  | |- preserves _ (when _ _) => apply preserves_when
  | |- preserves _ (try_except_Exception _ _) => apply preserves_try_except; [|intros ?]
  | |- preserves _ (try_return_finally _ _) => apply preserves_try_return_finally; [|intros ?]
  | |- preserves _ (for_each _ _) => apply preserves_for_each; intros ?
  | |- preserves _ (lift_outcome _) => apply preserves_lift_outcome
  | |- preserves _ (py_index _ _) => apply preserves_py_index
  | |- preserves _ (unpack2 _) => apply preserves_unpack2
  | |- preserves _ (check_fault _ _) => apply preserves_check_fault
  | |- preserves _ (liftW _) => apply preserves_liftW
  | |- preserves _ (with_frame _ _) => apply preserves_with_frame
  | |- preserves _ (setattr "_datadog_span" (PSpan _)) => apply preserves_attach
  | |- preserves _ (delattr "_datadog_span") => apply preserves_detach
  | |- preserves _ (span_method _ _ _) => apply preserves_span_method
  | |- preserves _ (span_context _) => apply preserves_span_context
  | |- preserves _ (getattr_strict _) => apply preserves_getattr_strict
  | |- preserves _ (resp_status _) => apply preserves_resp_status
  | |- preserves _ (resp_getheaders _) => apply preserves_resp_getheaders
  | |- preserves _ (getattr _ _) => by apply preserves_read
  | |- preserves _ (hasattr _) => by apply preserves_read
  | |- preserves _ get_instance => by apply preserves_read
  | |- preserves _ get_frame => by apply preserves_read
  | |- preserves _ (put_frame _) => by intros [??]
  | |- preserves _ Pin_get_from => by apply preserves_read
  | |- preserves _ config_get_from => by apply preserves_read
  | |- preserves _ (log_debug _) => by apply preserves_same_attrs
  | |- preserves _ (Pin_onto _) => by apply preserves_same_attrs
  | |- preserves _ (if ?c then _ else _) => destruct c
  | |- preserves _ (match ?x with _ => _ end) => destruct x
  end.

Lemma preserves_span_set_tag (span : pyval) (key : string) (value : tagval) :
  preserves P (span_set_tag E span key value).
Proof. unfold span_set_tag. repeat preserves_step. Qed.

Lemma preserves_propagator_inject (ctx : Z * Z) (headers : pyval) :
  preserves P (propagator_inject E ctx headers).
Proof. unfold propagator_inject. repeat preserves_step. Qed.

Lemma preserves_store_headers (request : bool) (headers : list (string * pyval))
    (span : pyval) (cfg : IntegrationConfig) :
  preserves P (store_headers E request headers span cfg).
Proof.
  unfold store_headers. repeat preserves_step. apply preserves_span_set_tag.
Qed.

Lemma preserves_finish_attached_span (msg : string) :
  preserves P (finish_attached_span msg).
Proof. unfold finish_attached_span. repeat preserves_step. Qed.

Lemma preserves_call_recording_errors (func : Func) (args : list pyval)
    (kwargs : gmap string pyval) :
  preserves P (func args kwargs) →
  preserves P (call_recording_errors func args kwargs).
Proof. intros Hf. unfold call_recording_errors. repeat preserves_step. done. Qed.

Lemma preserves_request_try_block (cfg : option IntegrationConfig) :
  preserves (λ s : Frame * World, P (snd s)) (request_try_block E cfg).
Proof.
  unfold request_try_block.
  repeat first [preserves_step | apply preserves_propagator_inject].
Qed.

Lemma preserves_request_instrumentation (args : list pyval) (kwargs : gmap string pyval) :
  preserves P (request_instrumentation E args kwargs).
Proof.
  unfold request_instrumentation.
  repeat first [preserves_step | apply preserves_request_try_block
               | apply preserves_finish_attached_span].
Qed.

Lemma preserves_putrequest_try_block (args : list pyval) :
  preserves P (putrequest_try_block E args).
Proof.
  unfold putrequest_try_block.
  repeat first [preserves_step | apply preserves_span_set_tag].
Qed.

Lemma preserves_putrequest_instrumentation (args : list pyval) :
  preserves P (putrequest_instrumentation E args).
Proof.
  unfold putrequest_instrumentation.
  repeat first [preserves_step | apply preserves_putrequest_try_block
               | apply preserves_finish_attached_span].
Qed.

Lemma preserves_getresponse_finally (resp : pyval) :
  preserves P (getresponse_finally E resp).
Proof.
  unfold getresponse_finally, store_response_headers.
  repeat first [preserves_step | apply preserves_span_set_tag | apply preserves_store_headers].
Qed.

(** Every wrapper keeps the invariant, provided the method it wraps does. *)
Lemma preserves_wrapper (m : wrapper) (func : Func) (args : list pyval)
    (kwargs : gmap string pyval) :
  (∀ a k, preserves P (func a k)) →
  preserves P (wrapper_function E m func args kwargs).
Proof.
  intros Hf. destruct m; simpl.
  - unfold _wrap_init. repeat preserves_step. apply Hf.
  - unfold _wrap_getresponse. repeat preserves_step; try apply Hf.
    apply preserves_getresponse_finally.
  - unfold _wrap_request. repeat preserves_step; try apply Hf.
    + apply preserves_request_instrumentation.
    + apply preserves_call_recording_errors, Hf.
  - unfold _wrap_putrequest. repeat preserves_step; try apply Hf.
    + apply preserves_putrequest_instrumentation.
    + apply preserves_call_recording_errors, Hf.
  - unfold _wrap_putheader, header_dict, store_request_headers.
    repeat first [preserves_step | apply preserves_store_headers]; apply Hf.
Qed.

End AttributeInvariant.

(** ** Open spans along a sequence of calls *)

Lemma keeps_closed_set_tag (k : string) (v : tagval) : keeps_closed (Span.set_tag k v).
Proof. by intros s. Qed.

Lemma keeps_closed_set_error (v : Z) : keeps_closed (Span.set_error v).
Proof. by intros s. Qed.

Lemma keeps_closed_set_exc_info (e : exn) : keeps_closed (Span.set_exc_info e).
Proof. by intros s. Qed.

Lemma keeps_closed_finish : keeps_closed Span.finish.
Proof. intros s. unfold Span.is_open. simpl. discriminate. Qed.











(** Invariants of the spans and of the connection's attributes that
    survive an update of a span which does not reopen it.  Everything the
    wrappers do keeps them, except [tracer.trace], [setattr] and
    [delattr]. *)
Section OpenSpanInvariant.
Variable P : World → Prop.
Hypothesis P_same : ∀ w w',
  attrs (instance w') = attrs (instance w) → spans w' = spans w → P w → P w'.
Hypothesis P_alter : ∀ w f r, keeps_closed f → P w → P (set_spans (alter f r) w).
Variable E : Env.

Lemma stays_same {A} (m : M World A) :
  (∀ w, attrs (instance (snd (m w))) = attrs (instance w) ∧ spans (snd (m w)) = spans w) →
  preserves P m.
Proof using P_same P_alter. intros Hm w HP. destruct (Hm w) as [Ha Hs]. by apply (P_same w). Qed.

Lemma stays_span_method (span : pyval) (method : string) (f : Span.t → Span.t) :
  keeps_closed f → preserves P (span_method span method f).
Proof using P_same P_alter.
  intros Hf. destruct span; simpl; try apply preserves_raise.
  intros w HP. by apply P_alter.
Qed.

Ltac stays_step :=
  lazymatch goal with
  | |- preserves _ (bind _ _) => apply preserves_bind; [|intros ?]
  | |- preserves _ (ret _) => apply preserves_ret
  | |- preserves _ (raise _) => apply preserves_raise
  | |- preserves _ (when _ _) => apply preserves_when
  | |- preserves _ (try_except_Exception _ _) => apply preserves_try_except; [|intros ?]
  | |- preserves _ (for_each _ _) => apply preserves_for_each; intros ?
  | |- preserves _ (lift_outcome _) => apply preserves_lift_outcome
  | |- preserves _ (py_index _ _) => apply preserves_py_index
  | |- preserves _ (unpack2 _) => apply preserves_unpack2
  | |- preserves _ (check_fault _ _) => apply preserves_check_fault
  | |- preserves _ (liftW _) => apply (preserves_liftW P)
  | |- preserves _ (span_method _ _ (Span.set_tag _ _)) =>
      apply stays_span_method, keeps_closed_set_tag
  | |- preserves _ (span_method _ _ (Span.set_error _)) =>
      apply stays_span_method, keeps_closed_set_error
  | |- preserves _ (span_method _ _ (Span.set_exc_info _)) =>
      apply stays_span_method, keeps_closed_set_exc_info
  | |- preserves _ (span_method _ _ Span.finish) =>
      apply stays_span_method, keeps_closed_finish
  | |- preserves _ (log_debug _) => by apply stays_same
  | |- preserves _ (Pin_onto _) => by apply stays_same
  | |- preserves _ (getattr_strict ?n) =>
      apply preserves_read; intros w; unfold getattr_strict;
      by destruct (attrs (instance w) !! n)
  | |- preserves _ (span_context ?v) =>
      apply preserves_read; intros w; unfold span_context;
      destruct v; try done; by destruct (spans w !! _)
  | |- preserves _ (resp_status ?v) => destruct v; first [apply preserves_raise|apply preserves_ret]
  | |- preserves _ (resp_getheaders ?v) =>
      destruct v; first [apply preserves_raise|apply preserves_ret]
  | |- preserves _ (getattr _ _) => by apply preserves_read
  | |- preserves _ (hasattr _) => by apply preserves_read
  | |- preserves _ get_instance => by apply preserves_read
  | |- preserves _ get_frame => by apply preserves_read
  | |- preserves _ (put_frame _) => by intros [??]
  | |- preserves _ Pin_get_from => by apply preserves_read
  | |- preserves _ config_get_from => by apply preserves_read
  | |- preserves _ (if ?c then _ else _) => destruct c
  | |- preserves _ (match ?x with _ => _ end) => destruct x
  end.


Lemma stays_propagator_inject (ctx : Z * Z) (headers : pyval) :
  preserves P (propagator_inject E ctx headers).
Proof using P_same P_alter. unfold propagator_inject. repeat stays_step. Qed.


Lemma stays_finish_attached_span (msg : string) :
  preserves P (finish_attached_span msg).
Proof using P_same P_alter. unfold finish_attached_span. repeat stays_step. Qed.




(** The part of [_wrap_request]'s [try] block after the span is attached. *)
Lemma stays_request_after_attach (cfg : option IntegrationConfig) (span : pyval) :
  preserves (λ s : Frame * World, P (snd s))
    (when (cfg_get_distributed_tracing cfg)
       (fr <- get_frame ;;
        if (3 <? length (f_args fr))%nat then
          headers <- py_index (f_args fr) 3 ;;
          ctx <- liftW (span_context span) ;;
          headers' <- liftW (propagator_inject E ctx headers) ;;
          put_frame {| f_args := <[3%nat := headers']> (f_args fr); f_kwargs := f_kwargs fr |}
        else
          let sd := setdefault "headers" (PDict ∅) (f_kwargs fr) in
          put_frame {| f_args := f_args fr; f_kwargs := fst sd |} ;;;
          ctx <- liftW (span_context span) ;;
          headers' <- liftW (propagator_inject E ctx (snd sd)) ;;
          put_frame {| f_args := f_args fr; f_kwargs := <["headers" := headers']> (fst sd) |})).
Proof using P_same P_alter.
  repeat first [stays_step | apply stays_propagator_inject | progress cbv zeta].
Qed.



(** [span = tracer.trace(...); setattr(instance, '_datadog_span', span)]
    at the head of a guarded block, as in [_wrap_request]: what holds once
    the span is attached holds after the block and its handler. *)
Lemma trace_attach_block (name ty : string) (rest : pyval → M (Frame * World) unit)
    (h : exn → M (Frame * World) unit) (fr : Frame) (w : World) :
  (is_Some (faults E TracerTrace) → P w) →
  (faults E TracerTrace = None →
   P (set_attrs (insert "_datadog_span" (PSpan (length (spans w))))
        (set_spans (λ l, (l ++ [Span.mk name ty (fst (fresh_ids E (length (spans w))))
                                   (snd (fresh_ids E (length (spans w)))) ∅ 0 None 0%nat])%list)
           w))) →
  (∀ span, preserves (λ s : Frame * World, P (snd s)) (rest span)) →
  (∀ e, preserves (λ s : Frame * World, P (snd s)) (h e)) →
  P (snd (snd
    (try_except_Exception
       (span <- liftW (tracer_trace E name ty) ;;
        liftW (setattr "_datadog_span" span) ;;;
        rest span) h (fr, w)))).
Proof.
  intros Hfail Hok Hrest Hh.
  unfold try_except_Exception, bind at 1, liftW at 1, tracer_trace, check_fault, bind at 1,
    ret, raise.
  cbn [fst snd].
  destruct (faults E TracerTrace) as [e|].
  - destruct (exn_is_Exception e); [|by apply Hfail].
    apply (Hh e (fr, w)). by apply Hfail.
  - unfold bind at 1, liftW at 1, setattr. cbn [fst snd].
    specialize (Hok eq_refl). set (w1 := set_attrs _ _) in *.
    pose proof (Hrest (PSpan (length (spans w))) (fr, w1) Hok) as H.
    destruct (rest (PSpan (length (spans w))) (fr, w1)) as [[u|e] s1]; [done|].
    destruct (exn_is_Exception e); [|done].
    by apply (Hh e s1).
Qed.


End OpenSpanInvariant.













(** ** Header propagation *)

Lemma tracer_trace_attach (E : Env) (w : World) :
  faults E TracerTrace = None →
  (span <- tracer_trace E (span_name E) (SpanTypes_HTTP E) ;;
   setattr "_datadog_span" span ;;; ret span) w
  = (Return (PSpan (length (spans w))), span_attached E w).
Proof.
  intros Hf. unfold tracer_trace, check_fault, bind. rewrite Hf. reflexivity.
Qed.

Lemma span_context_new (E : Env) (w : World) :
  span_context (PSpan (length (spans w))) (span_attached E w)
  = (Return (fresh_ids E (length (spans w))), span_attached E w).
Proof.
  unfold span_context, span_attached, set_attrs, set_spans. simpl.
  rewrite list_lookup_middle by done. simpl. by destruct (fresh_ids E _).
Qed.

Lemma request_instrumentation_ok (E : Env) (args : list pyval) (kwargs : gmap string pyval)
    (w : World) (p : Pin.t) (d : gmap string string) :
  datadog_pin (instance w) = Some p →
  faults E TracerTrace = None →
  faults E PropagatorInject = None →
  default (PDict ∅) (call_headers {| f_args := args; f_kwargs := kwargs |}) = PDict d →
  let injected := PDict (propagation_headers E (fresh_ids E (length (spans w))) d) in
  request_instrumentation E args kwargs w =
  (Return (if distributed_tracing (Pin._config p) then
             if (3 <? length args)%nat
             then {| f_args := <[3%nat := injected]> args; f_kwargs := kwargs |}
             else {| f_args := args; f_kwargs := <["headers" := injected]> kwargs |}
           else {| f_args := args; f_kwargs := kwargs |}),
   span_attached E w).
Proof.
  intros Hpin Ht Hi Hd injected.
  assert (Hctx : ∀ fr, liftW (span_context (PSpan (length (spans w)))) (fr, span_attached E w)
                       = (Return (fresh_ids E (length (spans w))), (fr, span_attached E w))).
  { intros fr. unfold liftW. cbn [fst snd]. by rewrite span_context_new. }
  assert (Hinj : ∀ fr ctx, liftW (propagator_inject E ctx (PDict d)) (fr, span_attached E w)
                       = (Return (PDict (propagation_headers E ctx d)), (fr, span_attached E w))).
  { intros fr ctx. unfold liftW, propagator_inject, check_fault, bind. simpl. by rewrite Hi. }
  unfold request_instrumentation, config_get_from, bind at 1. rewrite Hpin. simpl.
  unfold with_frame, try_except_Exception, request_try_block.
  unfold bind at 1. unfold liftW at 1. simpl.
  unfold tracer_trace, check_fault. rewrite Ht. unfold bind at 1. simpl.
  unfold bind at 1. unfold liftW at 1. simpl.
  fold (new_span E w). fold (span_attached E w).
  unfold call_headers in Hd. simpl in Hd.
  destruct (distributed_tracing (Pin._config p)); simpl; [|reflexivity].
  unfold bind at 1. unfold get_frame at 1. simpl.
  destruct (3 <? length args)%nat eqn:Hlen.
  - apply Nat.ltb_lt in Hlen.
    destruct (lookup_lt_is_Some_2 args 3 Hlen) as [v Hv].
    rewrite Hv in Hd. simpl in Hd. subst v.
    unfold bind at 1. unfold py_index. rewrite Hv. simpl.
    unfold bind at 1. rewrite Hctx.
    unfold bind at 1. rewrite Hinj. reflexivity.
  - unfold bind at 1. simpl.
    unfold bind at 1. rewrite Hctx.
    unfold bind at 1.
    assert (Hsd : (setdefault "headers" (PDict ∅) kwargs).2 = PDict d).
    { unfold setdefault. by destruct (kwargs !! "headers"). }
    rewrite Hsd, Hinj. simpl. do 3 f_equal.
    unfold setdefault. destruct (kwargs !! "headers"); simpl; [done|].
    by rewrite insert_insert_eq.
Qed.

(** C9, as the code has it: in a traced call of [request()] whose span
    creation and propagator do not fail and whose [headers] argument is a
    dictionary [d] (the empty one when it is not given), the wrapped method
    is called with [headers] holding [d] and the propagation headers when
    the [distributed_tracing] toggle of the connection's configuration is
    enabled, and with the caller's arguments unchanged when it is disabled.
    A traced [putrequest()] calls the wrapped method with the caller's
    arguments whatever the toggle.  The toggle that [config._add] installs
    is disabled when the environment does not set it. *)
Theorem propagation_follows_toggle (E : Env) (str_true : string → bool)
    (base : IntegrationConfig) (func : Func) (args : list pyval)
    (kwargs : gmap string pyval) (w : World) (p : Pin.t) (d : gmap string string) :
  datadog_pin (instance w) = Some p →
  should_skip_request (Some p) (instance w) = false →
  faults E TracerTrace = None →
  faults E PropagatorInject = None →
  default (PDict ∅) (call_headers {| f_args := args; f_kwargs := kwargs |}) = PDict d →
  let injected := PDict (propagation_headers E (fresh_ids E (length (spans w))) d) in
  let fr :=
    if distributed_tracing (Pin._config p) then
      if (3 <? length args)%nat
      then {| f_args := <[3%nat := injected]> args; f_kwargs := kwargs |}
      else {| f_args := args; f_kwargs := <["headers" := injected]> kwargs |}
    else {| f_args := args; f_kwargs := kwargs |} in
  _wrap_request E func args kwargs w
  = call_recording_errors func (f_args fr) (f_kwargs fr) (span_attached E w) ∧
  (distributed_tracing (Pin._config p) = true → call_headers fr = Some injected) ∧
  (distributed_tracing (Pin._config p) = false →
   fr = {| f_args := args; f_kwargs := kwargs |}) ∧
  _wrap_putrequest E func args kwargs w
  = (putrequest_instrumentation E args ;;; call_recording_errors func args kwargs) w ∧
  distributed_tracing (config_add_httplib str_true None base) = false.
Proof.
  intros Hpin Hskip Ht Hi Hd injected fr.
  assert (Hskip' : should_skip_request (datadog_pin (instance w)) (instance w) = false)
    by (by rewrite Hpin).
  repeat split.
  - rewrite _wrap_request_traced by done. unfold bind.
    by rewrite (request_instrumentation_ok E args kwargs w p d).
  - intros Hdt. subst fr. rewrite Hdt. unfold call_headers.
    destruct (3 <? length args)%nat eqn:Hlen; simpl.
    + rewrite length_insert, Hlen. apply list_lookup_insert_eq. by apply Nat.ltb_lt.
    + rewrite Hlen. apply lookup_insert_eq.
  - intros Hdt. subst fr. by rewrite Hdt.
  - by apply _wrap_putrequest_traced.
Qed.

(** [request] on the example connection with the toggle enabled and
    disabled: the wrapped method sees the propagation headers, or none. *)
Lemma propagation_follows_toggle_witness :
  _wrap_request (example_env true) echo_headers [PStr "GET"; PStr "/"] ∅ (example_world true)
  = (Return (PDict {[ "x-datadog-parent-id" := "0"; "x-datadog-trace-id" := "7" ]}),
     span_attached (example_env true) (example_world true)) ∧
  _wrap_request (example_env false) echo_headers [PStr "GET"; PStr "/"] ∅ (example_world false)
  = (Return PNone, span_attached (example_env false) (example_world false)).
Proof.
  split.
  - pose proof (propagation_follows_toggle (example_env true) (λ _, true) (example_config true)
                  echo_headers [PStr "GET"; PStr "/"] ∅ (example_world true)
                  (Pin.mk "httplib" None example_tracer (example_config true)) ∅
                  eq_refl eq_refl eq_refl eq_refl eq_refl) as [H _].
    rewrite H. vm_compute. reflexivity.
  - pose proof (propagation_follows_toggle (example_env false) (λ _, true) (example_config false)
                  echo_headers [PStr "GET"; PStr "/"] ∅ (example_world false)
                  (Pin.mk "httplib" None example_tracer (example_config false)) ∅
                  eq_refl eq_refl eq_refl eq_refl eq_refl) as [H _].
    rewrite H. vm_compute. reflexivity.
Defined.

(** C9 as stated fails: with the toggle enabled, a request made through
    [putrequest], [putheader] and [getresponse] is traced (one span is made and finished)
    and yet the wrapped methods see the caller's arguments only: no
    propagation header reaches the outgoing request. *)
Lemma putrequest_traced_without_propagation :
  let E := example_env true in
  let w1 := snd (_wrap_putrequest E echo_headers [PStr "GET"; PStr "/"] ∅ (example_world true)) in
  let w2 := snd (_wrap_putheader E sends_header [PStr "Accept"; PStr "*/*"] ∅ w1) in
  let w3 := snd (_wrap_getresponse E (returns (PResponse 200 [])) [] ∅ w2) in
  cfg_get_distributed_tracing
    (Pin._config <$> datadog_pin (instance (example_world true))) = true ∧
  fst (_wrap_putrequest E echo_headers [PStr "GET"; PStr "/"] ∅ (example_world true))
  = Return PNone ∧
  fst (_wrap_putheader E sends_header [PStr "Accept"; PStr "*/*"] ∅ w1)
  = Return (PDict {[ "Accept" := "*/*" ]}) ∧
  Span.finish_calls <$> spans w3 = [1%nat].
Proof. vm_compute. repeat split; reflexivity. Qed.

(** ** The response side of a cycle *)

Lemma set_spans_compose (f g : list Span.t → list Span.t) (w : World) :
  set_spans f (set_spans g w) = set_spans (f ∘ g) w.
Proof. reflexivity. Qed.

Lemma set_spans_alter_id (f : Span.t → Span.t) (r : nat) (w : World) :
  (∀ s, f s = s) → set_spans (alter f r) w = w.
Proof.
  intros Hf. destruct w as [sp inst lg]. unfold set_spans. simpl.
  by rewrite list_alter_id.
Qed.

Lemma span_set_tag_ok (E : Env) (r : nat) (key : string) (value : tagval) (w : World) :
  faults E (SpanSetTag key) = None →
  span_set_tag E (PSpan r) key value w
  = (Return tt, set_spans (alter (Span.set_tag key value) r) w).
Proof. intros Hf. unfold span_set_tag, check_fault, bind. by rewrite Hf. Qed.

Lemma bind_return {S A B} (m : M S A) (k : A → M S B) (s s' : S) (a : A) :
  m s = (Return a, s') → bind m k s = k a s'.
Proof. intros Hm. unfold bind. by rewrite Hm. Qed.

Lemma bind_raise {S A B} (m : M S A) (k : A → M S B) (s s' : S) (e : exn) :
  m s = (Raise e, s') → bind m k s = (Raise e, s').
Proof. intros Hm. unfold bind. by rewrite Hm. Qed.

Lemma store_headers_ok (E : Env) (request : bool) (hs : list (string * pyval))
    (r : nat) (cfg : IntegrationConfig) (w : World) :
  faults E (if request then StoreRequestHeaders else StoreResponseHeaders) = None →
  (∀ key, faults E (SpanSetTag key) = None) →
  store_headers E request hs (PSpan r) cfg w
  = (Return tt, set_spans (alter (header_tags E request cfg hs) r) w).
Proof.
  intros Hf Ht. unfold store_headers.
  rewrite (bind_return _ _ w w tt) by (unfold check_fault; by rewrite Hf).
  revert w. induction hs as [|[h v] hs IH]; intros w.
  - simpl. by rewrite set_spans_alter_id.
  - change (for_each ((h, v) :: hs) ?body) with (body (h, v) ;;; for_each hs body).
    cbn [header_tags fst snd].
    destruct (header_is_traced cfg h); cbn [when].
    + rewrite (bind_return _ _ w _ tt (span_set_tag_ok E r _ _ w (Ht _))).
      rewrite IH. unfold set_spans. simpl. by rewrite list_alter_alter_eq.
    + rewrite (bind_return _ _ w w tt) by done. apply IH.
Qed.

Lemma header_tags_keeps (E : Env) (request : bool) (cfg : IntegrationConfig)
    (hs : list (string * pyval)) (s : Span.t) :
  span_summary (header_tags E request cfg hs s) = span_summary s.
Proof.
  revert s. induction hs as [|kv hs IH]; intros s; [done|].
  simpl. rewrite IH. by destruct (header_is_traced cfg kv.1).
Qed.

Lemma response_recorded_summary (E : Env) (st : Z) (hs : list (string * string))
    (s : Span.t) :
  span_summary (response_recorded E st hs s)
  = (if 500 <=? st then 1 else 0, Span.exc_info s, S (Span.finish_calls s)).
Proof.
  unfold response_recorded.
  pose proof (header_tags_keeps E false (config_httplib E)
                (dict (prod_map id PStr <$> hs))
                (Span.set_error (if 500 <=? st then 1 else 0)
                   (Span.set_tag (STATUS_CODE E) (TInt st) s))) as H.
  unfold span_summary in *. simpl in *. by injection H as -> -> ->.
Qed.

Lemma delattr_attached (name : string) (v : pyval) (f : list Span.t → list Span.t)
    (w : World) :
  attrs (instance w) !! name = Some v →
  delattr name (set_spans f w) = (Return tt, set_attrs (delete name) (set_spans f w)).
Proof. intros Ha. unfold delattr. simpl. by rewrite Ha. Qed.

(** [_wrap_getresponse] when the wrapped call raises: the attached span is
    finished as it is and detached; nothing is recorded on it. *)
Lemma _wrap_getresponse_raise (E : Env) (func : Func) (args : list pyval)
    (kwargs : gmap string pyval) (w w1 : World) (p : Pin.t) (e : exn) (r : nat) :
  datadog_pin (instance w) = Some p →
  Pin.enabled p = true →
  func args kwargs w = (Raise e, w1) →
  attrs (instance w1) !! "_datadog_span" = Some (PSpan r) →
  _wrap_getresponse E func args kwargs w
  = (Raise e, set_attrs (delete "_datadog_span") (set_spans (alter Span.finish r) w1)).
Proof.
  intros Hpin Hen Hf Ha.
  unfold _wrap_getresponse, Pin_get_from, bind at 1. rewrite Hpin. simpl. rewrite Hen. simpl.
  unfold try_return_finally. rewrite Hf. simpl.
  unfold getresponse_finally, try_except_Exception.
  unfold bind at 1, getattr at 1. rewrite Ha. simpl.
  unfold bind at 1. simpl. unfold bind at 1. simpl.
  by rewrite (delattr_attached _ _ _ _ Ha).
Qed.

(** [_wrap_getresponse] when the wrapped call returns a response and the
    tagging does not fail: status, error flag and headers are recorded, the
    span is finished and detached. *)
Lemma _wrap_getresponse_return (E : Env) (func : Func) (args : list pyval)
    (kwargs : gmap string pyval) (w w1 : World) (p : Pin.t) (st : Z)
    (hs : list (string * string)) (r : nat) :
  datadog_pin (instance w) = Some p →
  Pin.enabled p = true →
  func args kwargs w = (Return (PResponse st hs), w1) →
  attrs (instance w1) !! "_datadog_span" = Some (PSpan r) →
  faults E StoreResponseHeaders = None →
  (∀ key, faults E (SpanSetTag key) = None) →
  _wrap_getresponse E func args kwargs w
  = (Return (PResponse st hs),
     set_attrs (delete "_datadog_span")
       (set_spans (alter (response_recorded E st hs) r) w1)).
Proof.
  intros Hpin Hen Hf Ha Hsh Htag.
  unfold _wrap_getresponse, Pin_get_from, bind at 1. rewrite Hpin. simpl. rewrite Hen. simpl.
  unfold try_return_finally. rewrite Hf. simpl.
  unfold getresponse_finally, try_except_Exception.
  unfold bind at 1, getattr at 1. rewrite Ha. simpl.
  unfold check_fault. rewrite Htag. unfold store_response_headers, bind, ret.
  rewrite store_headers_ok by done.
  rewrite !set_spans_compose.
  rewrite (delattr_attached _ _ _ _ Ha).
  do 2 f_equal. unfold set_spans. simpl. f_equal.
  rewrite !list_alter_alter_eq. reflexivity.
Qed.

(** The handler of lines 88-94 and 151-157 never detaches the span:
    whatever the wrapped call does, the connection's attributes after
    the guarded call are those the wrapped call left. *)
Lemma call_recording_errors_attrs (func : Func) (args : list pyval)
    (kwargs : gmap string pyval) (w : World) :
  attrs (instance (snd (call_recording_errors func args kwargs w)))
  = attrs (instance (snd (func args kwargs w))).
Proof.
  unfold call_recording_errors, try_except_Exception.
  destruct (func args kwargs w) as [[v|e] w1]; [done|].
  destruct (exn_is_Exception e); [|done].
  unfold bind, getattr. simpl.
  destruct (default PNone (attrs (instance w1) !! "_datadog_span")) as [|[]|z|s|d|r|st hs];
    simpl; try done.
  - by destruct (negb (z =? 0)).
  - by destruct (negb (String.eqb s "")).
  - by destruct (negb (bool_decide (d = ∅))).
Qed.

(** ** Instrumentation errors in the guarded blocks *)

Section RaisesOnlyExceptions.
Context {S : Type}.

Lemma roE_ret {A} (a : A) : raises_only_Exceptions (@ret S A a).
Proof. by intros s e s' [=]. Qed.

Lemma roE_raise {A} (e : exn) :
  exn_is_Exception e = true → raises_only_Exceptions (@raise S A e).
Proof. by intros He s e' s' [= <- _]. Qed.

Lemma roE_bind {A B} (m : M S A) (k : A → M S B) :
  raises_only_Exceptions m → (∀ a, raises_only_Exceptions (k a)) →
  raises_only_Exceptions (bind m k).
Proof.
  intros Hm Hk s e s'. unfold bind.
  destruct (m s) as [[a|e0] s0] eqn:Hs.
  - apply Hk.
  - intros [= <- _]. by apply (Hm s e0 s0).
Qed.

Lemma roE_when (c : bool) (body : M S unit) :
  raises_only_Exceptions body → raises_only_Exceptions (when c body).
Proof. destruct c; [done|intros _; apply roE_ret]. Qed.

Lemma roE_try_except {A} (body : M S A) (handler : exn → M S A) :
  raises_only_Exceptions body → (∀ e, raises_only_Exceptions (handler e)) →
  raises_only_Exceptions (try_except_Exception body handler).
Proof.
  intros Hb Hh s e s'. unfold try_except_Exception.
  destruct (body s) as [[a|e0] s0] eqn:Hs; [done|].
  destruct (exn_is_Exception e0) eqn:He0; [apply Hh|].
  intros [= <- _]. by apply (Hb s e0 s0).
Qed.

Lemma roE_for_each {A} (l : list A) (body : A → M S unit) :
  (∀ x, raises_only_Exceptions (body x)) → raises_only_Exceptions (for_each l body).
Proof.
  intros Hb. induction l as [|x l IH]; simpl; [apply roE_ret|].
  apply roE_bind; [apply Hb|by intros _].
Qed.

Lemma roE_py_index (args : list pyval) (i : nat) :
  raises_only_Exceptions (@py_index S args i).
Proof. unfold py_index. destruct (args !! i); [apply roE_ret|by apply roE_raise]. Qed.

Lemma roE_unpack2 (t : list pyval) : raises_only_Exceptions (@unpack2 S t).
Proof.
  unfold unpack2. destruct t as [|a [|b [|c t]]];
    first [apply roE_ret|by apply roE_raise].
Qed.

Lemma roE_check_fault (E : Env) (op : instr_op) :
  faults_are_Exceptions E → raises_only_Exceptions (@check_fault E S op).
Proof.
  intros [HE _]. unfold check_fault. destruct (faults E op) as [e|] eqn:Hf.
  - apply roE_raise. by apply (HE op).
  - apply roE_ret.
Qed.

(** A statement that never raises. *)
Lemma roE_total {A} (m : M S A) :
  (∀ s, ∃ a, fst (m s) = Return a) → raises_only_Exceptions m.
Proof. intros Hm s e s' Hs. destruct (Hm s) as [a Ha]. rewrite Hs in Ha. done. Qed.

End RaisesOnlyExceptions.

Lemma roE_liftW {A} (m : M World A) :
  raises_only_Exceptions m → raises_only_Exceptions (liftW m).
Proof.
  intros Hm [fr w] e [fr' w']. unfold liftW. simpl.
  destruct (m w) as [[a|e0] w0] eqn:Hw; [done|].
  intros [= <- _ _]. by apply (Hm w e0 w0).
Qed.

Lemma roE_span_method (span : pyval) (method : string) (f : Span.t → Span.t) :
  raises_only_Exceptions (span_method span method f).
Proof. destruct span; simpl; first [by apply roE_raise|by intros s e s' [=]]. Qed.

Lemma roE_span_context (span : pyval) : raises_only_Exceptions (span_context span).
Proof.
  intros w e w'. unfold span_context.
  destruct span; try by intros [= <- _].
  destruct (spans w !! ref); [done|by intros [= <- _]].
Qed.

Lemma roE_getattr_strict (name : string) : raises_only_Exceptions (getattr_strict name).
Proof.
  intros w e w'. unfold getattr_strict.
  destruct (attrs (instance w) !! name); [done|by intros [= <- _]].
Qed.

Lemma roE_delattr (name : string) : raises_only_Exceptions (delattr name).
Proof.
  intros w e w'. unfold delattr.
  destruct (attrs (instance w) !! name); [done|by intros [= <- _]].
Qed.

Lemma roE_resp_status (resp : pyval) : raises_only_Exceptions (resp_status resp).
Proof. destruct resp; first [by apply roE_raise|apply roE_ret]. Qed.

Lemma roE_resp_getheaders (resp : pyval) : raises_only_Exceptions (resp_getheaders resp).
Proof. destruct resp; first [by apply roE_raise|apply roE_ret]. Qed.

Ltac roE_step :=
  lazymatch goal with
  | |- raises_only_Exceptions (bind _ _) => apply roE_bind; [|intros ?]
  | |- raises_only_Exceptions (ret _) => apply roE_ret
  | |- raises_only_Exceptions (raise _) => by apply roE_raise
  | |- raises_only_Exceptions (when _ _) => apply roE_when
  | |- raises_only_Exceptions (try_except_Exception _ _) => apply roE_try_except; [|intros ?]
  | |- raises_only_Exceptions (for_each _ _) => apply roE_for_each; intros ?
  | |- raises_only_Exceptions (py_index _ _) => apply roE_py_index
  | |- raises_only_Exceptions (unpack2 _) => apply roE_unpack2
  | |- raises_only_Exceptions (check_fault _ _) => by apply roE_check_fault
  | |- raises_only_Exceptions (liftW _) => apply roE_liftW
  | |- raises_only_Exceptions (span_method _ _ _) => apply roE_span_method
  | |- raises_only_Exceptions (span_context _) => apply roE_span_context
  | |- raises_only_Exceptions (getattr_strict _) => apply roE_getattr_strict
  | |- raises_only_Exceptions (delattr _) => apply roE_delattr
  | |- raises_only_Exceptions (resp_status _) => apply roE_resp_status
  | |- raises_only_Exceptions (resp_getheaders _) => apply roE_resp_getheaders
  | |- raises_only_Exceptions (getattr _ _) => by intros ??? [=]
  | |- raises_only_Exceptions (hasattr _) => by intros ??? [=]
  | |- raises_only_Exceptions (setattr _ _) => by intros ??? [=]
  | |- raises_only_Exceptions get_instance => by intros ??? [=]
  | |- raises_only_Exceptions get_frame => by intros ??? [=]
  | |- raises_only_Exceptions (put_frame _) => by intros ??? [=]
  | |- raises_only_Exceptions (log_debug _) => by intros ??? [=]
  | |- raises_only_Exceptions (if ?c then _ else _) => destruct c
  | |- raises_only_Exceptions (match ?x with _ => _ end) => destruct x
  end.

Section Swallowed.
Variable E : Env.
Hypothesis HE : faults_are_Exceptions E.

Lemma roE_tracer_trace (name ty : string) :
  raises_only_Exceptions (tracer_trace E name ty).
Proof. unfold tracer_trace. repeat roE_step. by intros ??? [=]. Qed.

Lemma roE_span_set_tag (span : pyval) (key : string) (value : tagval) :
  raises_only_Exceptions (span_set_tag E span key value).
Proof. unfold span_set_tag. repeat roE_step. Qed.

Lemma roE_propagator_inject (ctx : Z * Z) (headers : pyval) :
  raises_only_Exceptions (propagator_inject E ctx headers).
Proof. unfold propagator_inject. repeat roE_step. Qed.

Lemma roE_store_headers (request : bool) (headers : list (string * pyval))
    (span : pyval) (cfg : IntegrationConfig) :
  raises_only_Exceptions (store_headers E request headers span cfg).
Proof. unfold store_headers. repeat roE_step. apply roE_span_set_tag. Qed.

Lemma roE_request_try_block (cfg : option IntegrationConfig) :
  raises_only_Exceptions (request_try_block E cfg).
Proof.
  unfold request_try_block.
  repeat first [roE_step | apply roE_tracer_trace | apply roE_propagator_inject].
Qed.

Lemma roE_putrequest_try_block (args : list pyval) :
  raises_only_Exceptions (putrequest_try_block E args).
Proof.
  unfold putrequest_try_block.
  repeat first [roE_step | apply roE_tracer_trace | apply roE_span_set_tag].
  destruct HE as [_ HU]. intros w e w'. unfold lift_outcome.
  destruct (urlparse E _) as [pr|e0] eqn:Hu; [done|].
  intros [= <- _]. by apply (HU _ _ Hu).
Qed.

Lemma try_except_returns {S A} (P : S → Prop) (body : M S A) (handler : exn → M S A) :
  raises_only_Exceptions body → preserves P body →
  (∀ e, always_returns P (handler e)) →
  always_returns P (try_except_Exception body handler).
Proof.
  intros Hroe Hpres Hh s HP. unfold try_except_Exception.
  specialize (Hpres s HP).
  destruct (body s) as [[a|e] s'] eqn:Hs; simpl in *; [by exists a|].
  rewrite (Hroe s e s' Hs). by apply Hh.
Qed.

Lemma slot_sane_same_attrs (w w' : World) :
  attrs (instance w') = attrs (instance w) → slot_sane w → slot_sane w'.
Proof. intros Heq Hs v. rewrite Heq. apply Hs. Qed.

Lemma slot_sane_attach (w : World) (r : nat) :
  slot_sane w → slot_sane (set_attrs (insert "_datadog_span" (PSpan r)) w).
Proof.
  intros _ v. unfold set_attrs. simpl. rewrite lookup_insert_eq.
  intros [= <-] _. by exists r.
Qed.

Lemma slot_sane_detach (w : World) :
  slot_sane w → slot_sane (set_attrs (delete "_datadog_span") w).
Proof. intros _ v. unfold set_attrs. simpl. by rewrite lookup_delete_eq. Qed.

Lemma slot_sane_getattr (w : World) :
  slot_sane w →
  truthy (default PNone (attrs (instance w) !! "_datadog_span")) = true →
  ∃ r, attrs (instance w) !! "_datadog_span" = Some (PSpan r).
Proof.
  intros Hs Ht. destruct (attrs (instance w) !! "_datadog_span") as [v|] eqn:Hv; [|done].
  destruct (Hs v Hv Ht) as [r ->]. by exists r.
Qed.

Lemma finish_attached_span_returns (msg : string) :
  always_returns slot_sane (finish_attached_span msg).
Proof.
  intros w Hs. unfold finish_attached_span, bind, log_debug, getattr. simpl.
  destruct (truthy (default PNone (attrs (instance w) !! "_datadog_span"))) eqn:Ht.
  - destruct (slot_sane_getattr w Hs Ht) as [r ->]. by exists tt.
  - by exists tt.
Qed.

(** The guarded block of [_wrap_putrequest] never raises. *)
Lemma putrequest_instrumentation_returns (args : list pyval) :
  always_returns slot_sane (putrequest_instrumentation E args).
Proof.
  unfold putrequest_instrumentation. apply try_except_returns.
  - by apply roE_putrequest_try_block.
  - apply preserves_putrequest_try_block;
      [apply slot_sane_same_attrs | intros ??; apply slot_sane_attach].
  - intros _. apply finish_attached_span_returns.
Qed.

(** The guarded block of [_wrap_request] never raises. *)
Lemma request_instrumentation_returns (args : list pyval) (kwargs : gmap string pyval) :
  always_returns slot_sane (request_instrumentation E args kwargs).
Proof.
  intros w Hs. unfold request_instrumentation, bind at 1, config_get_from.
  unfold with_frame.
  destruct (try_except_returns (λ s : Frame * World, slot_sane (snd s))
              (request_try_block E (Pin._config <$> datadog_pin (instance w)))
              (λ _, liftW (finish_attached_span "error configuring request")))
    with (s := ({| f_args := args; f_kwargs := kwargs |}, w)) as [a Ha].
  - by apply roE_request_try_block.
  - apply preserves_request_try_block;
      [apply slot_sane_same_attrs | intros ??; apply slot_sane_attach].
  - intros _ [fr w0] Hs0. unfold liftW. simpl in *.
    destruct (finish_attached_span_returns "error configuring request" w0 Hs0) as [u Hu].
    destruct (finish_attached_span _ w0). simpl in *. by exists u.
  - done.
  - destruct (try_except_Exception _ _ _) as [[u|e] [fr w1]]; simpl in *; [by exists fr|done].
Qed.

(** The [finally] block of [_wrap_getresponse] never raises. *)
Lemma getresponse_finally_returns (resp : pyval) (w : World) :
  ∃ a, fst (getresponse_finally E resp w) = Return a.
Proof.
  apply (try_except_returns (λ _, True)); [| | |done].
  - unfold store_response_headers.
    repeat first [roE_step | apply roE_span_set_tag | apply roE_store_headers]; done.
  - by intros ??.
  - intros _ w' _. by exists tt.
Qed.

Lemma call_recording_errors_outcome (func : Func) (args : list pyval)
    (kwargs : gmap string pyval) (w : World) :
  slot_sane (snd (func args kwargs w)) →
  fst (call_recording_errors func args kwargs w) = fst (func args kwargs w).
Proof.
  unfold call_recording_errors, try_except_Exception.
  destruct (func args kwargs w) as [[v|e] w1]; simpl; [done|]. intros Hs.
  destruct (exn_is_Exception e); [|done].
  unfold bind, getattr. simpl.
  destruct (truthy (default PNone (attrs (instance w1) !! "_datadog_span"))) eqn:Ht; [|done].
  by destruct (slot_sane_getattr w1 Hs Ht) as [r ->].
Qed.

(** [_wrap_getresponse] returns what the wrapped call returns and raises
    what it raises. *)
Lemma _wrap_getresponse_outcome (func : Func) (args : list pyval)
    (kwargs : gmap string pyval) (w : World) :
  fst (_wrap_getresponse E func args kwargs w) = fst (func args kwargs w).
Proof.
  unfold _wrap_getresponse, bind, Pin_get_from.
  destruct (negb _); [done|]. unfold try_return_finally.
  destruct (func args kwargs w) as [[v|e] w1]; simpl.
  - destruct (getresponse_finally_returns (default PNone (Some v)) w1) as [u Hu].
    destruct (getresponse_finally E _ w1) as [[|] ?]; by simpl in *.
  - destruct (getresponse_finally_returns (default PNone None) w1) as [u Hu].
    destruct (getresponse_finally E _ w1) as [[|] ?]; by simpl in *.
Qed.

(** [_wrap_putrequest] returns what the wrapped call returns and raises
    what it raises, the wrapped call being made with the caller's
    arguments once the instrumentation block is done. *)
Lemma _wrap_putrequest_outcome (func : Func) (args : list pyval)
    (kwargs : gmap string pyval) (w : World) :
  slot_sane w → (∀ a k, preserves slot_sane (func a k)) →
  ∃ w1, fst (_wrap_putrequest E func args kwargs w) = fst (func args kwargs w1).
Proof.
  intros Hs Hf. unfold _wrap_putrequest, bind at 1 2, Pin_get_from, get_instance.
  destruct (should_skip_request _ _); [by exists w|].
  destruct (putrequest_instrumentation_returns args w Hs) as [u Hu].
  assert (Hs1 : slot_sane (snd (putrequest_instrumentation E args w))).
  { apply preserves_putrequest_instrumentation; [..|done].
    - apply slot_sane_same_attrs.
    - intros ??; apply slot_sane_attach. }
  unfold bind. destruct (putrequest_instrumentation E args w) as [[[]|e] w1]; [|done].
  exists w1. apply call_recording_errors_outcome. by apply Hf.
Qed.

(** [_wrap_request] returns what the wrapped call returns and raises what
    it raises, the wrapped call being made with the arguments that the
    instrumentation block left. *)
Lemma _wrap_request_outcome (func : Func) (args : list pyval)
    (kwargs : gmap string pyval) (w : World) :
  slot_sane w → (∀ a k, preserves slot_sane (func a k)) →
  ∃ fr w1, fst (_wrap_request E func args kwargs w)
           = fst (func (f_args fr) (f_kwargs fr) w1).
Proof.
  intros Hs Hf. unfold _wrap_request, bind at 1 2, Pin_get_from, get_instance.
  destruct (should_skip_request _ _);
    [by exists {| f_args := args; f_kwargs := kwargs |}, w|].
  destruct (request_instrumentation_returns args kwargs w Hs) as [fr Hfr].
  assert (Hs1 : slot_sane (snd (request_instrumentation E args kwargs w))).
  { apply preserves_request_instrumentation; [..|done].
    - apply slot_sane_same_attrs.
    - intros ??; apply slot_sane_attach. }
  unfold bind. destruct (request_instrumentation E args kwargs w) as [[fr'|e] w1]; [|done].
  exists fr', w1. apply call_recording_errors_outcome. by apply Hf.
Qed.

End Swallowed.

(** ** Where the wrappers leave the documented behaviour *)

(** C2, failing input: [request()] succeeds and the wrapped
    [getresponse()] raises.  One span is produced and finished, but its
    error flag stays 0 and no exception is recorded on it, although the
    wrapped call raised: [_wrap_getresponse] has no [except] clause doing
    what lines 88-93 do. *)
Theorem getresponse_exception_not_flagged :
  let E := example_env false in
  let w1 := snd (_wrap_request E (returns PNone) [PStr "GET"; PStr "/"] ∅ (example_world false)) in
  let out := _wrap_getresponse E (raises socket_timeout) [] ∅ w1 in
  fst out = Raise socket_timeout ∧
  span_summary <$> spans (snd out) = [(0, None, 1%nat)].
Proof. vm_compute. split; reflexivity. Qed.

(** C3, failing input: [putheader('X-Foo')] (a header without values) on a
    connection with a span attached.  The instrumentation of
    [_wrap_putheader] is not guarded: [args[1]] raises [IndexError] and the
    wrapped method, which would have returned, is never called.  An
    exception of [store_request_headers] escapes in the same way. *)
Theorem putheader_instrumentation_error_escapes :
  let E := example_env false in
  let w1 := snd (_wrap_request E (returns PNone) [PStr "GET"; PStr "/"] ∅ (example_world false)) in
  returns PNone [PStr "X-Foo"] ∅ w1 = (Return PNone, w1) ∧
  _wrap_putheader E (returns PNone) [PStr "X-Foo"] ∅ w1
  = (Raise (IndexError "tuple index out of range"), w1) ∧
  _wrap_putheader (failing_store_request_headers E (TypeError "bad header"))
    (returns PNone) [PStr "X-Foo"; PStr "1"] ∅ w1
  = (Raise (TypeError "bad header"), w1).
Proof. vm_compute. repeat split; reflexivity. Qed.

(** C5, failing inputs.  First, [putrequest('GET', url='/')] followed by
    [getresponse()]: with one positional argument [method, path = args[:2]]
    raises inside the instrumentation block; the handler finishes the span
    but leaves it attached, the request goes on, and [_wrap_getresponse]
    finishes the same span again.  Second, [request('GET', '/')] whose
    inner [putrequest] raises: the handler of [_wrap_putrequest] finishes
    the span and leaves it attached, and the handler of [_wrap_request]
    finishes it again.  In both, [finish()] is called twice on the span of
    the cycle. *)
Theorem span_finished_twice :
  let E := example_env false in
  let out1 := _wrap_putrequest E (returns PNone) [PStr "GET"] {["url" := PStr "/"]}
                (example_world false) in
  let out2 := _wrap_getresponse E (returns (PResponse 200 [])) [] ∅ (snd out1) in
  let out3 := _wrap_request E (library_request (_wrap_putrequest E (raises socket_timeout)))
                [PStr "GET"; PStr "/"] ∅ (example_world false) in
  (fst out1 = Return PNone ∧
   Span.finish_calls <$> spans (snd out1) = [1%nat] ∧
   attrs (instance (snd out1)) !! "_datadog_span" = Some (PSpan 0) ∧
   fst out2 = Return (PResponse 200 []) ∧
   Span.finish_calls <$> spans (snd out2) = [2%nat]) ∧
  (fst out3 = Raise socket_timeout ∧
   Span.finish_calls <$> spans (snd out3) = [2%nat]).
Proof. vm_compute. repeat split; reflexivity. Qed.

(** C6, failing input: [request()] whose wrapped call raises.  The
    exception ends the cycle and the span is finished, but
    [_datadog_span] is still set on the connection afterwards: lines 88-94
    have no [delattr], unlike line 54. *)
Theorem span_attribute_left_after_exception :
  let E := example_env false in
  let out := _wrap_request E (raises socket_timeout) [PStr "GET"; PStr "/"] ∅
               (example_world false) in
  fst out = Raise socket_timeout ∧
  span_summary <$> spans (snd out) = [(1, Some socket_timeout, 1%nat)] ∧
  attrs (instance (snd out)) !! "_datadog_span" = Some (PSpan 0).
Proof. vm_compute. repeat split; reflexivity. Qed.

(** * Further properties of the wrappers *)

(** ** Which calls are traced *)

(** X1: [should_skip_request] lets a request be traced exactly when the
    connection has a pin, the pin's tracer is enabled, and the host or the
    port differs from the address of the tracer's agent API. *)
Theorem should_skip_request_false_iff (pin : option Pin.t) (c : HTTPConnection) :
  should_skip_request pin c = false ↔
  ∃ p, pin = Some p ∧ Pin.enabled p = true ∧
       (host c ≠ Tracer.api_hostname (Pin.tracer p) ∨
        port c ≠ Tracer.api_port (Pin.tracer p)).
Proof.
  unfold should_skip_request. split.
  - destruct pin as [p|]; [|done]. destruct (Pin.enabled p) eqn:Hen; [|done]. simpl.
    intros Hf. exists p. split; [done|]. split; [done|].
    apply andb_false_iff in Hf as [Hh|Hp].
    + left. by apply String.eqb_neq.
    + right. by apply Z.eqb_neq.
  - intros (p & -> & Hen & Hne). rewrite Hen. simpl.
    apply andb_false_iff. destruct Hne as [Hh|Hp].
    + left. by apply String.eqb_neq.
    + right. by apply Z.eqb_neq.
Qed.

(** X2: on a connection without a pin, or whose pin's tracer is disabled,
    [getresponse], [request] and [putrequest] are the wrapped call and
    nothing else: same outcome, same state, even when a span is attached
    or the tracing library would fail. *)
Theorem unpinned_or_disabled_not_traced (E : Env) (func : Func) (args : list pyval)
    (kwargs : gmap string pyval) (w : World) :
  from_option Pin.enabled false (datadog_pin (instance w)) = false →
  _wrap_getresponse E func args kwargs w = func args kwargs w ∧
  _wrap_request E func args kwargs w = func args kwargs w ∧
  _wrap_putrequest E func args kwargs w = func args kwargs w.
Proof.
  intros Hoff.
  assert (Hskip : should_skip_request (datadog_pin (instance w)) (instance w) = true).
  { unfold should_skip_request. destruct (datadog_pin (instance w)) as [p|]; [|done].
    simpl in Hoff. by rewrite Hoff. }
  unfold _wrap_getresponse, _wrap_request, _wrap_putrequest, bind, Pin_get_from, get_instance.
  by rewrite Hoff, Hskip.
Qed.

(** A connection whose tracer has been disabled, with a span still attached. *)
Lemma unpinned_or_disabled_not_traced_witness :
  let w := set_pin (Some (Pin.mk "httplib" None (Tracer.mk false "localhost" 8126)
                            (example_config false))) example_world_in_request in
  _wrap_getresponse (example_env false) (returns (PResponse 200 [])) [] ∅ w
  = (Return (PResponse 200 []), w).
Proof.
  intros w.
  pose proof (unpinned_or_disabled_not_traced (example_env false)
                (returns (PResponse 200 [])) [] ∅ w eq_refl) as [H _].
  exact H.
Defined.

(** ** How many spans a call makes *)

(** Invariants of the tracer's span list that survive an update of one span
    in place.  Everything the wrappers do except [tracer.trace] keeps
    them. *)
Section SpanListInvariant.
Variable Q : list Span.t → Prop.
Hypothesis Q_alter : ∀ f r l, Q l → Q (alter f r l).
Variable E : Env.

Lemma keeps_same_spans {A} (m : M World A) :
  (∀ w, spans (snd (m w)) = spans w) → preserves (λ w : World, Q (spans w)) m.
Proof. intros Hm w HP. simpl. by rewrite Hm. Qed.

Lemma keeps_span_method (span : pyval) (method : string) (f : Span.t → Span.t) :
  preserves (λ w : World, Q (spans w)) (span_method span method f).
Proof.
  destruct span; simpl; try apply preserves_raise.
  intros w HP. by apply Q_alter.
Qed.

Ltac keeps_step :=
  lazymatch goal with
  | |- preserves _ (bind _ _) => apply preserves_bind; [|intros ?]
  | |- preserves _ (ret _) => apply preserves_ret
  | |- preserves _ (raise _) => apply preserves_raise
  | |- preserves _ (when _ _) => apply preserves_when
  | |- preserves _ (try_except_Exception _ _) => apply preserves_try_except; [|intros ?]
  | |- preserves _ (try_return_finally _ _) => apply preserves_try_return_finally; [|intros ?]
  | |- preserves _ (for_each _ _) => apply preserves_for_each; intros ?
  | |- preserves _ (lift_outcome _) => apply preserves_lift_outcome
  | |- preserves _ (py_index _ _) => apply preserves_py_index
  | |- preserves _ (unpack2 _) => apply preserves_unpack2
  | |- preserves _ (check_fault _ _) => apply preserves_check_fault
  | |- preserves _ (liftW _) => apply (preserves_liftW (λ w : World, Q (spans w)))
  | |- preserves _ (with_frame _ _) => apply (preserves_with_frame (λ w : World, Q (spans w)))
  | |- preserves _ (span_method _ _ _) => apply keeps_span_method
  | |- preserves _ (setattr _ _) => by apply keeps_same_spans
  | |- preserves _ (log_debug _) => by apply keeps_same_spans
  | |- preserves _ (Pin_onto _) => by apply keeps_same_spans
  | |- preserves _ (delattr ?n) =>
      apply keeps_same_spans; intros w; unfold delattr;
      by destruct (attrs (instance w) !! n)
  | |- preserves _ (getattr_strict ?n) =>
      apply preserves_read; intros w; unfold getattr_strict;
      by destruct (attrs (instance w) !! n)
  | |- preserves _ (span_context ?v) =>
      apply preserves_read; intros w; unfold span_context;
      destruct v; try done; by destruct (spans w !! _)
  | |- preserves _ (resp_status ?v) => destruct v; first [apply preserves_raise|apply preserves_ret]
  | |- preserves _ (resp_getheaders ?v) =>
      destruct v; first [apply preserves_raise|apply preserves_ret]
  | |- preserves _ (getattr _ _) => by apply preserves_read
  | |- preserves _ (hasattr _) => by apply preserves_read
  | |- preserves _ get_instance => by apply preserves_read
  | |- preserves _ get_frame => by apply preserves_read
  | |- preserves _ (put_frame _) => by intros [??]
  | |- preserves _ Pin_get_from => by apply preserves_read
  | |- preserves _ config_get_from => by apply preserves_read
  | |- preserves _ (if ?c then _ else _) => destruct c
  | |- preserves _ (match ?x with _ => _ end) => destruct x
  end.

Lemma keeps_span_set_tag (span : pyval) (key : string) (value : tagval) :
  preserves (λ w : World, Q (spans w)) (span_set_tag E span key value).
Proof. unfold span_set_tag. repeat keeps_step. Qed.

Lemma keeps_propagator_inject (ctx : Z * Z) (headers : pyval) :
  preserves (λ w : World, Q (spans w)) (propagator_inject E ctx headers).
Proof. unfold propagator_inject. repeat keeps_step. Qed.

Lemma keeps_store_headers (request : bool) (headers : list (string * pyval))
    (span : pyval) (cfg : IntegrationConfig) :
  preserves (λ w : World, Q (spans w)) (store_headers E request headers span cfg).
Proof. unfold store_headers. repeat keeps_step. apply keeps_span_set_tag. Qed.

Lemma keeps_finish_attached_span (msg : string) :
  preserves (λ w : World, Q (spans w)) (finish_attached_span msg).
Proof. unfold finish_attached_span. repeat keeps_step. Qed.

Lemma keeps_call_recording_errors (func : Func) (args : list pyval)
    (kwargs : gmap string pyval) :
  preserves (λ w : World, Q (spans w)) (func args kwargs) →
  preserves (λ w : World, Q (spans w)) (call_recording_errors func args kwargs).
Proof. intros Hf. unfold call_recording_errors. repeat keeps_step. done. Qed.

Lemma keeps_getresponse_finally (resp : pyval) :
  preserves (λ w : World, Q (spans w)) (getresponse_finally E resp).
Proof.
  unfold getresponse_finally, store_response_headers.
  repeat first [keeps_step | apply keeps_span_set_tag | apply keeps_store_headers].
Qed.

Lemma keeps__wrap_init (func : Func) (args : list pyval) (kwargs : gmap string pyval) :
  preserves (λ w : World, Q (spans w)) (func args kwargs) →
  preserves (λ w : World, Q (spans w)) (_wrap_init E func args kwargs).
Proof. intros Hf. unfold _wrap_init. repeat keeps_step. done. Qed.

Lemma keeps__wrap_getresponse (func : Func) (args : list pyval)
    (kwargs : gmap string pyval) :
  preserves (λ w : World, Q (spans w)) (func args kwargs) →
  preserves (λ w : World, Q (spans w)) (_wrap_getresponse E func args kwargs).
Proof.
  intros Hf. unfold _wrap_getresponse. repeat keeps_step; try done.
  apply keeps_getresponse_finally.
Qed.

Lemma keeps__wrap_putheader (func : Func) (args : list pyval)
    (kwargs : gmap string pyval) :
  preserves (λ w : World, Q (spans w)) (func args kwargs) →
  preserves (λ w : World, Q (spans w)) (_wrap_putheader E func args kwargs).
Proof.
  intros Hf. unfold _wrap_putheader, header_dict, store_request_headers.
  repeat first [keeps_step | apply keeps_store_headers]; done.
Qed.

(** The part of [_wrap_request]'s [try] block after [tracer.trace]. *)
Lemma keeps_request_after_trace (cfg : option IntegrationConfig) (span : pyval) :
  preserves (λ s : Frame * World, Q (spans (snd s)))
    (liftW (setattr "_datadog_span" span) ;;;
     when (cfg_get_distributed_tracing cfg)
       (fr <- get_frame ;;
        if (3 <? length (f_args fr))%nat then
          headers <- py_index (f_args fr) 3 ;;
          ctx <- liftW (span_context span) ;;
          headers' <- liftW (propagator_inject E ctx headers) ;;
          put_frame {| f_args := <[3%nat := headers']> (f_args fr); f_kwargs := f_kwargs fr |}
        else
          let sd := setdefault "headers" (PDict ∅) (f_kwargs fr) in
          put_frame {| f_args := f_args fr; f_kwargs := fst sd |} ;;;
          ctx <- liftW (span_context span) ;;
          headers' <- liftW (propagator_inject E ctx (snd sd)) ;;
          put_frame {| f_args := f_args fr; f_kwargs := <["headers" := headers']> (fst sd) |})).
Proof.
  repeat first [keeps_step | apply keeps_propagator_inject | progress cbv zeta].
Qed.

(** The part of [_wrap_putrequest]'s [try] block after the span is bound. *)
Lemma keeps_putrequest_after_span (args : list pyval) (span : pyval) :
  preserves (λ w : World, Q (spans w))
    (mp <- unpack2 (take 2 args) ;;
     inst <- get_instance ;;
     let scheme := if is_HTTPSConnection inst then "https" else "http" in
     let port0 := ":" +:+ pretty (port inst) in
     let port1 :=
       if (String.eqb scheme "http" && (port inst =? 80))
          || (String.eqb scheme "https" && (port inst =? 443))
       then "" else port0 in
     let url := scheme +:+ "://" +:+ host inst +:+ port1 +:+ py_str E (snd mp) in
     parsed <- lift_outcome (urlparse E url) ;;
     let sanitized_url :=
       urlunparse E (pr_scheme parsed) (pr_netloc parsed) (pr_path parsed)
                  (pr_params parsed) None (pr_fragment parsed) in
     span_set_tag E span (URL E) (TStr sanitized_url) ;;;
     span_set_tag E span (METHOD E) (tag_of (fst mp)) ;;;
     when (trace_query_string (config_httplib E))
          (span_set_tag E span (QUERY_STRING E) (TStr (pr_query parsed))) ;;;
     span_set_tag E span (ANALYTICS_SAMPLE_RATE_KEY E)
       (analytics_sample_rate (config_httplib E))).
Proof.
  repeat first [keeps_step | apply keeps_span_set_tag | progress cbv zeta].
Qed.

End SpanListInvariant.

Lemma length_spans_alter (n : nat) (f : Span.t → Span.t) (r : nat) (l : list Span.t) :
  length l = n → length (alter f r l) = n.
Proof. intros <-. apply length_alter. Qed.

(** A wrapped method that makes no span and drops none. *)
Lemma keeps_count_func (func : Func) (n : nat) (args : list pyval)
    (kwargs : gmap string pyval) :
  (∀ a k w, length (spans (snd (func a k w))) = length (spans w)) →
  preserves (λ w, length (spans w) = n) (func args kwargs).
Proof. intros Hf w Hw. by rewrite Hf. Qed.

(** X3: [__init__], [putheader] and [getresponse] never call the tracer
    for a span: when the wrapped method leaves the number of spans alone,
    so does the call through the wrapper, on every path and whatever
    fails. *)
Theorem init_putheader_getresponse_open_no_span (E : Env) (m : wrapper) (func : Func)
    (args : list pyval) (kwargs : gmap string pyval) (w : World) :
  m = W_init ∨ m = W_putheader ∨ m = W_getresponse →
  (∀ a k w', length (spans (snd (func a k w'))) = length (spans w')) →
  length (spans (snd (wrapper_function E m func args kwargs w))) = length (spans w).
Proof.
  intros Hm Hf.
  pose proof (keeps_count_func func (length (spans w)) args kwargs Hf) as Hk.
  destruct Hm as [-> | [-> | ->]]; simpl.
  - by apply (keeps__wrap_init (λ l, length l = length (spans w)) E func args kwargs Hk).
  - by apply (keeps__wrap_putheader _ (length_spans_alter _) E func args kwargs Hk).
  - by apply (keeps__wrap_getresponse _ (length_spans_alter _) E func args kwargs Hk).
Qed.

(** A whole cycle's worth of headers and the response on a connection where
    [request] attached span 0: still one span. *)
Lemma init_putheader_getresponse_open_no_span_witness :
  length (spans (snd (_wrap_getresponse (example_env false) (returns (PResponse 503 []))
                        [] ∅ example_world_in_request))) = 1%nat.
Proof.
  apply (init_putheader_getresponse_open_no_span (example_env false) W_getresponse
           (returns (PResponse 503 [])) [] ∅ example_world_in_request).
  - right. by right.
  - reflexivity.
Defined.

(** A guarded block that starts with [tracer.trace] and makes no other
    span: one span more if the tracer returns one, none if it fails. *)
Lemma trace_block_count (E : Env) (name ty : string)
    (k : pyval → M (Frame * World) unit) (h : exn → M (Frame * World) unit)
    (fr : Frame) (w : World) :
  (∀ span n, preserves (λ s : Frame * World, length (spans (snd s)) = n) (k span)) →
  (∀ e n, preserves (λ s : Frame * World, length (spans (snd s)) = n) (h e)) →
  length (spans (snd (snd
    (try_except_Exception (bind (liftW (tracer_trace E name ty)) k) h (fr, w)))))
  = match faults E TracerTrace with
    | None => S (length (spans w))
    | Some _ => length (spans w)
    end.
Proof.
  intros Hk Hh.
  unfold try_except_Exception, bind at 1, liftW at 1, tracer_trace, check_fault, bind, ret, raise.
  cbn [fst snd].
  destruct (faults E TracerTrace) as [e|].
  - destruct (exn_is_Exception e); [|done].
    apply (Hh e (length (spans w)) (fr, w) eq_refl).
  - set (w1 := set_spans _ w).
    assert (Hw1 : length (spans w1) = S (length (spans w))).
    { unfold w1, set_spans. simpl. rewrite length_app. simpl. lia. }
    pose proof (Hk (PSpan (length (spans w))) _ (fr, w1) Hw1) as H.
    destruct (k (PSpan (length (spans w))) (fr, w1)) as [[u|e] s1]; [done|].
    destruct (exn_is_Exception e); [|done].
    by apply (Hh e _ s1).
Qed.

Lemma request_instrumentation_count (E : Env) (args : list pyval)
    (kwargs : gmap string pyval) (w : World) :
  length (spans (snd (request_instrumentation E args kwargs w)))
  = match faults E TracerTrace with
    | None => S (length (spans w))
    | Some _ => length (spans w)
    end.
Proof.
  unfold request_instrumentation, bind at 1, config_get_from, with_frame, request_try_block.
  match goal with
  | |- context [try_except_Exception (bind (liftW (tracer_trace E ?n ?t)) ?k) ?h (?fr, w)] =>
      rewrite <- (trace_block_count E n t k h fr w);
        [by destruct (try_except_Exception (bind (liftW (tracer_trace E n t)) k) h (fr, w))
              as [[|] [??]]| |]
  end.
  - intros span n. apply (keeps_request_after_trace (λ l, length l = n)).
  - intros _ n. apply (preserves_liftW (λ w, length (spans w) = n)).
    apply (keeps_finish_attached_span _ (length_spans_alter n)).
Qed.

(** A guarded block that binds the attached span, or makes and attaches
    one, and makes no other span. *)
Lemma reuse_block_count (E : Env) (name ty : string)
    (rest : pyval → M World unit) (h : exn → M World unit) (w : World) :
  (∀ span n, preserves (λ w, length (spans w) = n) (rest span)) →
  (∀ e n, preserves (λ w, length (spans w) = n) (h e)) →
  length (spans (snd
    (try_except_Exception
       (has <- hasattr "_datadog_span" ;;
        span <- (if has : bool then getattr_strict "_datadog_span"
                 else
                   span <- tracer_trace E name ty ;;
                   setattr "_datadog_span" span ;;;
                   ret span) ;;
        rest span) h w)))
  = match attrs (instance w) !! "_datadog_span", faults E TracerTrace with
    | None, None => S (length (spans w))
    | _, _ => length (spans w)
    end.
Proof.
  intros Hrest Hh.
  unfold try_except_Exception, bind at 1, hasattr. cbn [fst snd].
  destruct (attrs (instance w) !! "_datadog_span") as [v|] eqn:Ha.
  - rewrite bool_decide_eq_true_2 by eauto.
    unfold bind at 1, getattr_strict. rewrite Ha.
    assert (Hn : length (spans w) = length (spans w)) by done.
    pose proof (Hrest v _ w Hn) as H.
    destruct (rest v w) as [[u|e] w1]; simpl in *.
    + by destruct (faults E TracerTrace).
    + assert (length (spans (snd (if exn_is_Exception e then h e w1 else (Raise e, w1))))
              = length (spans w)) as ->; [|by destruct (faults E TracerTrace)].
      destruct (exn_is_Exception e); [by apply (Hh e _ w1)|done].
  - rewrite bool_decide_eq_false_2 by (by intros [??]).
    unfold tracer_trace, check_fault, bind, ret, raise, setattr.
    destruct (faults E TracerTrace) as [e|]; cbn [fst snd].
    + destruct (exn_is_Exception e); [by apply (Hh e _ w)|done].
    + set (w1 := set_attrs _ (set_spans _ w)).
      assert (Hw1 : length (spans w1) = S (length (spans w))).
      { unfold w1, set_spans, set_attrs. simpl. rewrite length_app. simpl. lia. }
      pose proof (Hrest (PSpan (length (spans w))) _ w1 Hw1) as H.
      destruct (rest (PSpan (length (spans w))) w1) as [[u|e] w2]; simpl in *; [done|].
      destruct (exn_is_Exception e); [by apply (Hh e _ w2)|done].
Qed.

Lemma putrequest_instrumentation_count (E : Env) (args : list pyval) (w : World) :
  length (spans (snd (putrequest_instrumentation E args w)))
  = match attrs (instance w) !! "_datadog_span", faults E TracerTrace with
    | None, None => S (length (spans w))
    | _, _ => length (spans w)
    end.
Proof.
  unfold putrequest_instrumentation, putrequest_try_block.
  apply reuse_block_count.
  - intros span n. apply (keeps_putrequest_after_span _ (length_spans_alter n)).
  - intros _ n. apply (keeps_finish_attached_span _ (length_spans_alter n)).
Qed.

(** X5: a traced [putrequest()] reuses whatever [_datadog_span] holds and
    makes no span when the attribute is set (even to a finished span);
    otherwise it opens exactly one span when [tracer.trace] returns one and
    none when it fails.  Nothing else in the wrapper makes or drops a
    span. *)
Theorem putrequest_reuses_or_opens_one_span (E : Env) (func : Func) (args : list pyval)
    (kwargs : gmap string pyval) (w : World) :
  should_skip_request (datadog_pin (instance w)) (instance w) = false →
  (∀ a k w', length (spans (snd (func a k w'))) = length (spans w')) →
  length (spans (snd (_wrap_putrequest E func args kwargs w)))
  = match attrs (instance w) !! "_datadog_span", faults E TracerTrace with
    | None, None => S (length (spans w))
    | _, _ => length (spans w)
    end.
Proof.
  intros Hskip Hf. rewrite _wrap_putrequest_traced by done.
  rewrite <- putrequest_instrumentation_count with (args := args).
  unfold bind.
  destruct (putrequest_instrumentation E args w) as [[[]|e] w1]; [|done]. simpl.
  apply (keeps_call_recording_errors _ (length_spans_alter (length (spans w1)))
           func args kwargs); [|done].
  by apply keeps_count_func.
Qed.

(** [putrequest] inside [request]: the span of [request] is reused. *)
Lemma putrequest_reuses_or_opens_one_span_witness :
  length (spans (snd (_wrap_putrequest (example_env false) (returns PNone)
                        [PStr "GET"; PStr "/"] ∅ example_world_in_request))) = 1%nat ∧
  length (spans (snd (_wrap_putrequest (example_env false) (returns PNone)
                        [PStr "GET"; PStr "/"] ∅ (example_world false)))) = 1%nat.
Proof.
  split.
  - apply (putrequest_reuses_or_opens_one_span (example_env false) (returns PNone)
             [PStr "GET"; PStr "/"] ∅ example_world_in_request); reflexivity.
  - apply (putrequest_reuses_or_opens_one_span (example_env false) (returns PNone)
             [PStr "GET"; PStr "/"] ∅ (example_world false)); reflexivity.
Defined.

Lemma span_set_or_no_tracer_same (E : Env) (w w' : World) :
  attrs (instance w') = attrs (instance w) → spans w' = spans w →
  span_set_or_no_tracer E w → span_set_or_no_tracer E w'.
Proof. intros Ha _. unfold span_set_or_no_tracer. by rewrite Ha. Qed.

Lemma span_set_or_no_tracer_alter (E : Env) (w : World) (f : Span.t → Span.t) (r : nat) :
  keeps_closed f → span_set_or_no_tracer E w →
  span_set_or_no_tracer E (set_spans (alter f r) w).
Proof. by intros _. Qed.

(** The instrumentation block of [_wrap_request] leaves [_datadog_span]
    set, unless [tracer.trace] fails. *)
Lemma request_instrumentation_attaches (E : Env) (args : list pyval)
    (kwargs : gmap string pyval) (w : World) :
  span_set_or_no_tracer E (snd (request_instrumentation E args kwargs w)).
Proof.
  unfold request_instrumentation, bind at 1, config_get_from, with_frame, request_try_block.
  cbn [fst snd].
  match goal with
  | |- context [try_except_Exception ?b ?h (?fr, w)] =>
      assert (H : span_set_or_no_tracer E (snd (snd (try_except_Exception b h (fr, w)))));
        [|by destruct (try_except_Exception b h (fr, w)) as [[|] [??]]]
  end.
  apply (trace_attach_block (span_set_or_no_tracer E)).
  - intros Hf. by right.
  - intros _. left. unfold set_attrs. simpl. rewrite lookup_insert_eq. eauto.
  - intros span.
    apply (stays_request_after_attach _ (span_set_or_no_tracer_same E)
             (span_set_or_no_tracer_alter E)).
  - intros _. apply (preserves_liftW (span_set_or_no_tracer E)).
    apply (stays_finish_attached_span _ (span_set_or_no_tracer_same E)
             (span_set_or_no_tracer_alter E)).
Qed.

(** The handler around the wrapped call makes no span and drops none. *)
Lemma call_recording_errors_count (func : Func) (args : list pyval)
    (kwargs : gmap string pyval) (w : World) :
  length (spans (snd (call_recording_errors func args kwargs w)))
  = length (spans (snd (func args kwargs w))).
Proof.
  unfold call_recording_errors, try_except_Exception.
  destruct (func args kwargs w) as [[v|e] w1]; [done|]. cbn [snd].
  destruct (exn_is_Exception e) eqn:He; [|done].
  pose proof (keeps_call_recording_errors (λ l, length l = length (spans w1))
                (length_spans_alter _) (raises e) args kwargs
                (preserves_raise _ e) w1 eq_refl) as H.
  unfold call_recording_errors, try_except_Exception, raises, raise in H.
  by rewrite He in H.
Qed.

(** [putrequest()] on a connection that has [_datadog_span] set, or whose
    tracer fails, makes no span: this is what the library's [request()]
    meets when it calls the patched [putrequest()]. *)
Lemma putrequest_makes_no_span (E : Env) (func : Func) (args : list pyval)
    (kwargs : gmap string pyval) (w : World) :
  (∀ a k w', length (spans (snd (func a k w'))) = length (spans w')) →
  span_set_or_no_tracer E w →
  length (spans (snd (_wrap_putrequest E func args kwargs w))) = length (spans w).
Proof.
  intros Hf Hc.
  unfold _wrap_putrequest, bind at 1 2, Pin_get_from, get_instance. cbn [fst snd].
  destruct (should_skip_request _ _); [by apply Hf|].
  unfold bind.
  pose proof (putrequest_instrumentation_count E args w) as Hn.
  destruct (putrequest_instrumentation E args w) as [[[]|e] w1]; cbn [fst snd] in *.
  - rewrite call_recording_errors_count, Hf, Hn.
    destruct Hc as [[v ->]|[e ->]]; [done|].
    by destruct (attrs (instance w) !! "_datadog_span").
  - rewrite Hn.
    destruct Hc as [[v ->]|[e' ->]]; [done|].
    by destruct (attrs (instance w) !! "_datadog_span").
Qed.

(** X4: a traced [request()] opens exactly one span when [tracer.trace]
    returns one and none when it fails; nothing else in the wrapper makes
    or drops a span, whatever else fails and whether the wrapped call
    returns or raises.  The wrapped method is one that makes no span when
    it is called with [_datadog_span] set or with a tracer that fails, as
    the library's [request()] is: its [putrequest()] goes through the
    patched method, which reuses the attached span. *)
Theorem request_opens_one_span (E : Env) (func : Func) (args : list pyval)
    (kwargs : gmap string pyval) (w : World) :
  should_skip_request (datadog_pin (instance w)) (instance w) = false →
  (∀ a k w', span_set_or_no_tracer E w' →
             length (spans (snd (func a k w'))) = length (spans w')) →
  length (spans (snd (_wrap_request E func args kwargs w)))
  = match faults E TracerTrace with
    | None => S (length (spans w))
    | Some _ => length (spans w)
    end.
Proof.
  intros Hskip Hf. rewrite _wrap_request_traced by done.
  rewrite <- request_instrumentation_count with (args := args) (kwargs := kwargs).
  pose proof (request_instrumentation_attaches E args kwargs w) as Hc.
  unfold bind.
  destruct (request_instrumentation E args kwargs w) as [[fr|e] w1]; [|done].
  cbn [fst snd] in *.
  rewrite call_recording_errors_count. by apply Hf.
Qed.

(** [request('GET', '/')] on the example connection, the wrapped method
    being the library's [request()] that calls the patched [putrequest()]:
    one span, made by [request()] and reused by [putrequest()]. *)
Lemma request_opens_one_span_witness :
  let E := example_env true in
  length (spans (snd (_wrap_request E (library_request (_wrap_putrequest E (returns PNone)))
                        [PStr "GET"; PStr "/"] ∅ (example_world true)))) = 1%nat.
Proof.
  intros E.
  apply (request_opens_one_span E (library_request (_wrap_putrequest E (returns PNone)))
           [PStr "GET"; PStr "/"] ∅ (example_world true)).
  - reflexivity.
  - intros a k w' Hc. unfold library_request.
    by apply putrequest_makes_no_span.
Defined.

(** ** The response *)

(** X6: when the wrapped [getresponse()] returns a response with status
    [st] and tagging does not fail, the wrapper returns that response, the
    attached span gets error flag 1 if [500 <= st] and 0 otherwise, its
    recorded exception is kept, [finish()] is called on it once,
    [_datadog_span] is removed, and no other span changes. *)
Theorem getresponse_records_response (E : Env) (func : Func) (args : list pyval)
    (kwargs : gmap string pyval) (w w1 : World) (p : Pin.t) (st : Z)
    (hs : list (string * string)) (r : nat) (s : Span.t) :
  datadog_pin (instance w) = Some p →
  Pin.enabled p = true →
  func args kwargs w = (Return (PResponse st hs), w1) →
  attrs (instance w1) !! "_datadog_span" = Some (PSpan r) →
  spans w1 !! r = Some s →
  faults E StoreResponseHeaders = None →
  (∀ key, faults E (SpanSetTag key) = None) →
  ∃ w2 s2,
    _wrap_getresponse E func args kwargs w = (Return (PResponse st hs), w2) ∧
    attrs (instance w2) !! "_datadog_span" = None ∧
    spans w2 !! r = Some s2 ∧
    span_summary s2 = (if 500 <=? st then 1 else 0, Span.exc_info s, S (Span.finish_calls s)) ∧
    (∀ i, i ≠ r → spans w2 !! i = spans w1 !! i) ∧
    debug_log w2 = debug_log w1.
Proof.
  intros Hpin Hen Hf Ha Hs Hsh Htag.
  eexists _, (response_recorded E st hs s).
  split; [by apply (_wrap_getresponse_return E func args kwargs w w1 p st hs r)|].
  unfold set_attrs, set_spans. simpl. split; [apply lookup_delete_eq|].
  split; [by rewrite list_lookup_alter_eq, Hs|].
  split; [apply response_recorded_summary|].
  split; [|done]. intros i Hi. by apply list_lookup_alter_ne.
Qed.

(** A 503 answer on the example connection. *)
Lemma getresponse_records_response_witness :
  ∃ w2 s2,
    _wrap_getresponse (example_env false) (returns (PResponse 503 [])) [] ∅
      example_world_in_request = (Return (PResponse 503 []), w2) ∧
    attrs (instance w2) !! "_datadog_span" = None ∧
    spans w2 !! 0%nat = Some s2 ∧
    span_summary s2 = (1, None, 1%nat).
Proof.
  destruct (getresponse_records_response (example_env false) (returns (PResponse 503 []))
              [] ∅ example_world_in_request example_world_in_request
              (Pin.mk "httplib" None example_tracer (example_config false)) 503 [] 0
              (Span.mk "http.client.request" "http" 7 0 ∅ 0 None 0%nat)
              eq_refl eq_refl eq_refl eq_refl eq_refl eq_refl (λ _, eq_refl))
    as (w2 & s2 & H1 & H2 & H3 & H4 & _).
  by exists w2, s2.
Defined.

(** X7: [getresponse()] on a connection to which no span is attached once
    the wrapped call is done is that call and nothing else, whatever the
    pin and whatever fails in the tracing library: same outcome, same
    state, nothing logged. *)
Theorem getresponse_without_span (E : Env) (func : Func) (args : list pyval)
    (kwargs : gmap string pyval) (w : World) :
  truthy (default PNone (attrs (instance (snd (func args kwargs w))) !! "_datadog_span"))
  = false →
  _wrap_getresponse E func args kwargs w = func args kwargs w.
Proof.
  intros Hno. unfold _wrap_getresponse, bind, Pin_get_from.
  destruct (negb _); [done|]. unfold try_return_finally.
  destruct (func args kwargs w) as [[v|e] w1]; simpl in *;
    unfold getresponse_finally, try_except_Exception, bind, getattr; simpl;
    by rewrite Hno.
Qed.

(** [getresponse()] on a fresh connection. *)
Lemma getresponse_without_span_witness :
  _wrap_getresponse (example_env false) (raises socket_timeout) [] ∅ (example_world false)
  = (Raise socket_timeout, example_world false).
Proof.
  apply (getresponse_without_span (example_env false) (raises socket_timeout) [] ∅
           (example_world false)).
  reflexivity.
Defined.

(** X8: [getresponse()] through the wrapper returns what the wrapped call
    returns and raises what it raises, in every state of the connection and
    of the tracer, as long as what the tracing library raises is an
    [Exception]: no failure of tagging, finishing or detaching reaches the
    caller. *)
Theorem getresponse_outcome_is_wrapped_outcome (E : Env) (func : Func)
    (args : list pyval) (kwargs : gmap string pyval) (w : World) :
  faults_are_Exceptions E →
  fst (_wrap_getresponse E func args kwargs w) = fst (func args kwargs w).
Proof. intros HE. by apply _wrap_getresponse_outcome. Qed.

(** Status tagging fails on the example connection: the response is still
    handed back. *)
Lemma getresponse_outcome_is_wrapped_outcome_witness :
  let E := with_faults (example_env false) (failing_set_tag (TypeError "bad tag")) in
  fst (_wrap_getresponse E (returns (PResponse 200 [])) [] ∅ example_world_in_request)
  = Return (PResponse 200 []).
Proof.
  intros E.
  apply (getresponse_outcome_is_wrapped_outcome E (returns (PResponse 200 [])) [] ∅
           example_world_in_request).
  split.
  - intros op e. destruct op; simpl; intros [=]. by subst.
  - intros u e. simpl. intros [=].
Defined.

(** X9: a traced [request()] or [putrequest()] returns what the wrapped
    call returns and raises what it raises, the wrapped call being made in
    the state the instrumentation block leaves and, for [request()], with
    the arguments it leaves: no failure inside the two [try] blocks (lines
    67-79 and 103-140) reaches the caller.  This holds when what
    [tracer.trace], [span.set_tag], the propagator and [urlparse] raise
    there is an [Exception], [_datadog_span] holds a span if it holds
    anything true, and the wrapped method keeps it so.  The calls outside
    the [try] blocks are taken not to raise, as [Span.finish],
    [Span.set_exc_info], [Pin_get_from] and [config_get_from] are defined
    here: [span.finish()] and [span.set_exc_info()] in the handlers (lines
    84, 92-93, 147, 155-156) and the pin and configuration lookups (lines
    61-65, 99-100) are not guarded, and the statement says nothing of an
    exception raised by them. *)
Theorem request_outcome_is_wrapped_outcome (E : Env) (func : Func)
    (args : list pyval) (kwargs : gmap string pyval) (w : World) :
  faults_are_Exceptions E →
  slot_sane w →
  (∀ a k, preserves slot_sane (func a k)) →
  should_skip_request (datadog_pin (instance w)) (instance w) = false →
  (∃ fr, fst (request_instrumentation E args kwargs w) = Return fr ∧
         fst (_wrap_request E func args kwargs w)
         = fst (func (f_args fr) (f_kwargs fr)
                  (snd (request_instrumentation E args kwargs w)))) ∧
  fst (_wrap_putrequest E func args kwargs w)
  = fst (func args kwargs (snd (putrequest_instrumentation E args w))).
Proof.
  intros HE Hs Hf Hskip. split.
  - destruct (request_instrumentation_returns E HE args kwargs w Hs) as [fr Hfr].
    exists fr. split; [done|].
    assert (Hs1 : slot_sane (snd (request_instrumentation E args kwargs w))).
    { apply preserves_request_instrumentation; [..|done].
      - apply slot_sane_same_attrs.
      - intros ??; apply slot_sane_attach. }
    rewrite _wrap_request_traced by done. unfold bind.
    destruct (request_instrumentation E args kwargs w) as [[fr'|e] w1]; [|done].
    simpl in *. injection Hfr as ->.
    apply call_recording_errors_outcome. by apply Hf.
  - destruct (putrequest_instrumentation_returns E HE args w Hs) as [u Hu].
    assert (Hs1 : slot_sane (snd (putrequest_instrumentation E args w))).
    { apply preserves_putrequest_instrumentation; [..|done].
      - apply slot_sane_same_attrs.
      - intros ??; apply slot_sane_attach. }
    rewrite _wrap_putrequest_traced by done. unfold bind.
    destruct (putrequest_instrumentation E args w) as [[[]|e] w1]; [|done].
    simpl in *. apply call_recording_errors_outcome. by apply Hf.
Qed.

(** [putrequest('GET', url='/')]: unpacking fails inside the block, the
    wrapped call's result still comes back. *)
Lemma request_outcome_is_wrapped_outcome_witness :
  fst (_wrap_putrequest (example_env false) (returns (PInt 7)) [PStr "GET"]
         {["url" := PStr "/"]} (example_world false)) = Return (PInt 7).
Proof.
  pose proof (request_outcome_is_wrapped_outcome (example_env false) (returns (PInt 7))
                [PStr "GET"] {["url" := PStr "/"]} (example_world false)) as H.
  destruct H as [_ H].
  - split; [intros op e [=]|intros u e [=]].
  - intros v Hv. vm_compute in Hv. discriminate.
  - intros a k. apply preserves_ret.
  - reflexivity.
  - exact H.
Defined.

(** ** The tags of a request *)

Lemma request_url_code (c : HTTPConnection) (E : Env) (path : pyval) :
  (let scheme := if is_HTTPSConnection c then "https" else "http" in
   let port0 := ":" +:+ pretty (port c) in
   let port1 :=
     if (String.eqb scheme "http" && (port c =? 80))
        || (String.eqb scheme "https" && (port c =? 443))
     then "" else port0 in
   scheme +:+ "://" +:+ host c +:+ port1 +:+ py_str E path)
  = request_url E c path.
Proof.
  unfold request_url. destruct (is_HTTPSConnection c); simpl.
  - by destruct (port c =? 443).
  - by destruct (port c =? 80).
Qed.

Lemma putrequest_after_span_ok (E : Env) (method path : pyval) (rest : list pyval)
    (pr : ParseResult) (r : nat) (w : World) :
  (∀ key, faults E (SpanSetTag key) = None) →
  urlparse E (request_url E (instance w) path) = Return pr →
  (mp <- unpack2 (take 2 (method :: path :: rest)) ;;
   inst <- get_instance ;;
   let scheme := if is_HTTPSConnection inst then "https" else "http" in
   let port0 := ":" +:+ pretty (port inst) in
   let port1 :=
     if (String.eqb scheme "http" && (port inst =? 80))
        || (String.eqb scheme "https" && (port inst =? 443))
     then "" else port0 in
   let url := scheme +:+ "://" +:+ host inst +:+ port1 +:+ py_str E (snd mp) in
   parsed <- lift_outcome (urlparse E url) ;;
   let sanitized_url :=
     urlunparse E (pr_scheme parsed) (pr_netloc parsed) (pr_path parsed)
                (pr_params parsed) None (pr_fragment parsed) in
   span_set_tag E (PSpan r) (URL E) (TStr sanitized_url) ;;;
   span_set_tag E (PSpan r) (METHOD E) (tag_of (fst mp)) ;;;
   when (trace_query_string (config_httplib E))
        (span_set_tag E (PSpan r) (QUERY_STRING E) (TStr (pr_query parsed))) ;;;
   span_set_tag E (PSpan r) (ANALYTICS_SAMPLE_RATE_KEY E)
     (analytics_sample_rate (config_httplib E))) w
  = (Return tt, set_spans (alter (request_tags E method pr) r) w).
Proof.
  intros Htag Hurl.
  rewrite (bind_return _ _ w w (method, path)) by done.
  rewrite (bind_return _ _ w w (instance w)) by done.
  pose proof (request_url_code (instance w) E path) as Hu.
  cbv zeta in Hu |- *. cbn [fst snd]. rewrite Hu, Hurl.
  rewrite (bind_return _ _ w w pr) by done.
  rewrite (bind_return _ _ _ _ tt (span_set_tag_ok E r _ _ _ (Htag _))).
  rewrite (bind_return _ _ _ _ tt (span_set_tag_ok E r _ _ _ (Htag _))).
  unfold request_tags.
  destruct (trace_query_string (config_httplib E)); cbn [when].
  - rewrite (bind_return _ _ _ _ tt (span_set_tag_ok E r _ _ _ (Htag _))).
    rewrite span_set_tag_ok by done.
    rewrite !set_spans_compose. unfold set_spans. simpl.
    by rewrite !list_alter_alter_eq.
  - rewrite (bind_return _ _ _ _ tt) by done.
    rewrite span_set_tag_ok by done.
    rewrite !set_spans_compose. unfold set_spans. simpl.
    by rewrite !list_alter_alter_eq.
Qed.

(** A guarded block that binds the attached span, or makes and attaches
    one, and then runs [rest] without failing. *)
Lemma reuse_block_result (E : Env) (name ty : string)
    (rest : pyval → M World unit) (h : exn → M World unit) (v : pyval) (w w1 w2 : World) :
  (attrs (instance w) !! "_datadog_span" = Some v ∧ w1 = w) ∨
  (attrs (instance w) !! "_datadog_span" = None ∧ faults E TracerTrace = None ∧
   v = PSpan (length (spans w)) ∧
   w1 = set_attrs (insert "_datadog_span" v)
          (set_spans (λ l, (l ++ [Span.mk name ty (fst (fresh_ids E (length (spans w))))
                                    (snd (fresh_ids E (length (spans w)))) ∅ 0 None 0%nat])%list)
             w)) →
  rest v w1 = (Return tt, w2) →
  try_except_Exception
    (has <- hasattr "_datadog_span" ;;
     span <- (if has : bool then getattr_strict "_datadog_span"
              else
                span <- tracer_trace E name ty ;;
                setattr "_datadog_span" span ;;;
                ret span) ;;
     rest span) h w
  = (Return tt, w2).
Proof.
  intros Hcase Hrest.
  unfold try_except_Exception, bind at 1, hasattr. cbn [fst snd].
  destruct Hcase as [[Ha ->]|(Ha & Ht & -> & ->)]; rewrite Ha.
  - rewrite bool_decide_eq_true_2 by eauto.
    unfold bind at 1, getattr_strict. by rewrite Ha, Hrest.
  - rewrite bool_decide_eq_false_2 by (by intros [??]).
    unfold tracer_trace, check_fault, bind, ret, setattr. rewrite Ht. cbn [fst snd].
    by rewrite Hrest.
Qed.

(** X10: a traced [putrequest(method, path, ...)] whose tagging does not
    fail tags one span, the one attached to the connection or, when none
    is, the one it opens and attaches, with the URL, the method, the query
    string only if [trace_query_string] is set, and the analytics sample
    rate.  The URL is [scheme://host[:port]path] with the port left out
    when it is 80 for http or 443 for https, parsed and put together again
    without its query. *)
Theorem putrequest_tags_the_span (E : Env) (method path : pyval) (rest : list pyval)
    (pr : ParseResult) (r : nat) (w w1 : World) :
  (∀ key, faults E (SpanSetTag key) = None) →
  urlparse E (request_url E (instance w) path) = Return pr →
  (attrs (instance w) !! "_datadog_span" = Some (PSpan r) ∧ w1 = w) ∨
  (attrs (instance w) !! "_datadog_span" = None ∧ faults E TracerTrace = None ∧
   r = length (spans w) ∧ w1 = span_attached E w) →
  putrequest_instrumentation E (method :: path :: rest) w
  = (Return tt, set_spans (alter (request_tags E method pr) r) w1).
Proof.
  intros Htag Hurl Hcase.
  unfold putrequest_instrumentation, putrequest_try_block.
  apply (reuse_block_result E _ _ _ _ (PSpan r) w w1).
  - destruct Hcase as [[Ha ->]|(Ha & Ht & -> & ->)]; [by left|by right].
  - apply putrequest_after_span_ok; [done|].
    by destruct Hcase as [[_ ->]|(_ & _ & _ & ->)].
Qed.

(** [putrequest('GET', '/')] inside [request] on the example connection. *)
Lemma putrequest_tags_the_span_witness :
  Span.meta <$>
    spans (snd (putrequest_instrumentation (example_env false) [PStr "GET"; PStr "/"]
                  example_world_in_request))
  = [ {[ "http.url" := TStr "http://example.com/"; "http.method" := TStr "GET";
         "_dd1.sr.eausr" := TNone ]} ].
Proof.
  rewrite (putrequest_tags_the_span (example_env false) (PStr "GET") (PStr "/") []
             {| pr_scheme := "http"; pr_netloc := "example.com"; pr_path := "/";
                pr_params := ""; pr_query := ""; pr_fragment := "" |}
             0 example_world_in_request example_world_in_request
             (λ _, eq_refl) eq_refl (or_introl (conj eq_refl eq_refl))).
  vm_compute. reflexivity.
Defined.

(** ** When the tracer cannot make a span *)

(** X11: when [tracer.trace] raises an [Exception], a traced [request()]
    logs one debug message, finishes the span that is attached if there is
    one, and then makes the wrapped call with the caller's own arguments;
    a traced [putrequest()] on a connection without [_datadog_span] does
    the same.  No span is made or attached. *)
Theorem trace_failure_keeps_request_going (E : Env) (e : exn) (func : Func)
    (args : list pyval) (kwargs : gmap string pyval) (w : World) :
  faults E TracerTrace = Some e →
  exn_is_Exception e = true →
  should_skip_request (datadog_pin (instance w)) (instance w) = false →
  _wrap_request E func args kwargs w
  = (finish_attached_span "error configuring request" ;;;
     call_recording_errors func args kwargs) w ∧
  (attrs (instance w) !! "_datadog_span" = None →
   _wrap_putrequest E func args kwargs w
   = call_recording_errors func args kwargs
       (snd (log_debug "error applying request tags" w))).
Proof.
  intros Ht He Hskip. split.
  - rewrite _wrap_request_traced by done.
    unfold request_instrumentation, config_get_from, with_frame, try_except_Exception,
      request_try_block.
    unfold bind at 1 2 3. unfold liftW at 1, tracer_trace, check_fault, bind at 1.
    rewrite Ht. cbn [fst snd raise]. rewrite He.
    unfold liftW, bind. cbn [fst snd].
    by destruct (finish_attached_span _ w) as [[[]|e'] w1].
  - intros Ha. rewrite _wrap_putrequest_traced by done.
    unfold putrequest_instrumentation, try_except_Exception, putrequest_try_block.
    unfold bind at 1 2, hasattr. cbn [fst snd]. rewrite Ha.
    rewrite bool_decide_eq_false_2 by (by intros [??]).
    unfold tracer_trace, check_fault, bind at 1 2 3. rewrite Ht. cbn [fst snd raise].
    rewrite He. unfold finish_attached_span, bind, log_debug, getattr. cbn [fst snd instance attrs].
    by rewrite Ha.
Qed.

(** The tracer fails on the example connection; the request is sent. *)
Lemma trace_failure_keeps_request_going_witness :
  let E := with_faults (example_env true) (failing_trace (TypeError "no tracer")) in
  _wrap_request E echo_headers [PStr "GET"; PStr "/"] ∅ (example_world true)
  = (Return PNone, snd (log_debug "error configuring request" (example_world true))).
Proof.
  intros E.
  destruct (trace_failure_keeps_request_going E (TypeError "no tracer") echo_headers
              [PStr "GET"; PStr "/"] ∅ (example_world true) eq_refl eq_refl eq_refl)
    as [H _].
  rewrite H. vm_compute. reflexivity.
Defined.

(** ** The guarded call *)

(** X12: the handler around the wrapped call of [request()] and
    [putrequest()] acts only on an [Exception] raised while something true
    is attached as [_datadog_span].  When the wrapped call returns, raises
    something that is not an [Exception] (a [KeyboardInterrupt], say), or
    raises while no span is attached, outcome and state are exactly those
    of the wrapped call: nothing is recorded, finished or logged. *)
Theorem guarded_call_is_call (func : Func) (args : list pyval)
    (kwargs : gmap string pyval) (w : World) :
  match func args kwargs w with
  | (Return _, _) => True
  | (Raise e, w1) =>
      exn_is_Exception e = false ∨
      truthy (default PNone (attrs (instance w1) !! "_datadog_span")) = false
  end →
  call_recording_errors func args kwargs w = func args kwargs w.
Proof.
  unfold call_recording_errors, try_except_Exception.
  destruct (func args kwargs w) as [[v|e] w1]; [done|].
  intros [He|Hno].
  - by rewrite He.
  - destruct (exn_is_Exception e); [|done].
    unfold bind, getattr. simpl. by rewrite Hno.
Qed.

(** A keyboard interrupt during [request] on the example connection: the
    attached span stays open. *)
Lemma guarded_call_is_call_witness :
  call_recording_errors (raises (Exn false "KeyboardInterrupt" "")) [] ∅
    example_world_in_request
  = (Raise (Exn false "KeyboardInterrupt" ""), example_world_in_request).
Proof.
  apply (guarded_call_is_call (raises (Exn false "KeyboardInterrupt" "")) [] ∅
           example_world_in_request).
  simpl. by left.
Defined.

(** ** Headers *)

(** X13: [putheader()] on a connection to which nothing true is attached
    as [_datadog_span] is the wrapped call, whatever its arguments and
    whatever the pin.  With a span attached, a header name that is not a
    dictionary and at least one value, and no failure of tagging, the
    span is tagged with the first value if the configuration traces the
    header, and then the wrapped call is made with the same arguments. *)
Theorem putheader_tags_then_forwards (E : Env) (func : Func) (args : list pyval)
    (kwargs : gmap string pyval) (w : World) :
  (truthy (default PNone (attrs (instance w) !! "_datadog_span")) = false →
   _wrap_putheader E func args kwargs w = func args kwargs w) ∧
  (∀ r h v rest,
     attrs (instance w) !! "_datadog_span" = Some (PSpan r) →
     args = h :: v :: rest →
     (∀ d, h ≠ PDict d) →
     faults E StoreRequestHeaders = None →
     (∀ key, faults E (SpanSetTag key) = None) →
     _wrap_putheader E func args kwargs w
     = func args kwargs
         (set_spans (alter (header_tags E true (config_httplib E) [(py_str E h, v)]) r) w)).
Proof.
  split.
  - intros Hno. unfold _wrap_putheader, bind, getattr. simpl. by rewrite Hno.
  - intros r h v rest Ha -> Hh Hsh Htag.
    assert (Hd : header_dict E (h :: v :: rest) w = (Return [(py_str E h, v)], w)).
    { unfold header_dict, bind, py_index. simpl.
      destruct h; try done. by destruct (Hh d). }
    unfold _wrap_putheader.
    rewrite (bind_return _ _ w w (PSpan r)) by (unfold getattr; by rewrite Ha).
    cbn [truthy when].
    erewrite (bind_return _ _ w _ tt); [done|].
    rewrite (bind_return _ _ w w _ Hd). unfold store_request_headers.
    by rewrite store_headers_ok.
Qed.

(** [putheader('Accept', '*/*')] with the span 0 attached, under a
    configuration that traces the header [Accept]: the span gets the tag
    [http.request.headers.Accept] with the value, and the wrapped
    [putheader] is called with the header. *)
Lemma putheader_tags_then_forwards_witness :
  let E := with_config (example_env false) (example_config_tracing "Accept") in
  let r := _wrap_putheader E sends_header [PStr "Accept"; PStr "*/*"] ∅
             example_world_in_request in
  fst r = Return (PDict {[ "Accept" := "*/*" ]}) ∧
  Span.meta <$> spans (snd r) = [{[ "http.request.headers.Accept" := TStr "*/*" ]}] ∧
  attrs (instance (snd r)) !! "_datadog_span" = Some (PSpan 0).
Proof.
  intros E r. unfold r.
  destruct (putheader_tags_then_forwards E sends_header [PStr "Accept"; PStr "*/*"] ∅
              example_world_in_request) as [_ H].
  rewrite (H 0%nat (PStr "Accept") (PStr "*/*") [] eq_refl eq_refl
             (λ d, ltac:(discriminate)) eq_refl (λ _, eq_refl)).
  vm_compute. repeat split; reflexivity.
Defined.

(** ** Patching again *)

(** X14: [unpatch()] undoes [patch()].  On a module that is not patched,
    [patch()] followed by [unpatch()] leaves in every slot the method that
    was there, with the flag false, and patching once more gives what the
    first [patch()] gave. *)
Theorem unpatch_undoes_patch (m : httplib) :
  default false (__datadog_patch m) = false →
  (∀ w, slot (unpatch (patch m)) w = slot m w) ∧
  __datadog_patch (unpatch (patch m)) = Some false ∧
  patch (unpatch (patch m)) = patch m.
Proof.
  intros Hf. destruct m as [f i g r p h]. simpl in Hf.
  unfold patch. simpl. rewrite Hf. unfold unpatch. simpl.
  split; [intros []; reflexivity|]. split; reflexivity.
Qed.

Lemma unpatch_undoes_patch_witness :
  unpatch (patch httplib_imported)
  = {| __datadog_patch := Some false;
       HTTPConnection___init__ := Original "__init__";
       HTTPConnection_getresponse := Original "getresponse";
       HTTPConnection_request := Original "request";
       HTTPConnection_putrequest := Original "putrequest";
       HTTPConnection_putheader := Original "putheader" |} ∧
  patch (unpatch (patch httplib_imported)) = patch httplib_imported.
Proof.
  destruct (unpatch_undoes_patch httplib_imported eq_refl) as (_ & _ & H).
  split; [reflexivity|exact H].
Defined.

(** X15: however often and in whatever order [patch()] and [unpatch()]
    are called, no method is ever wrapped twice: a call through a slot is
    the library's method when the flag is not true, and the slot's wrapper
    around the library's method, once, when it is. *)
Theorem never_wrapped_twice (E : Env) (orig : string → Func) (m : httplib) (w : wrapper) :
  reachable m →
  invoke E orig (slot m w)
  = if default false (__datadog_patch m)
    then wrapper_function E w (orig (slot_name w))
    else orig (slot_name w).
Proof.
  intros Hr. destruct (reachable_shape m Hr) as [[Hf Hs]|[Hf Hs]]; rewrite Hf, Hs; done.
Qed.

Lemma never_wrapped_twice_witness :
  invoke (example_env false) (λ _, returns PNone)
    (slot (patch (patch (unpatch (patch httplib_imported)))) W_request)
  = _wrap_request (example_env false) (returns PNone).
Proof.
  apply (never_wrapped_twice (example_env false) (λ _, returns PNone)
           (patch (patch (unpatch (patch httplib_imported)))) W_request).
  repeat first [apply reach_patch | apply reach_unpatch | apply reach_import].
Defined.

(** ** A request on a connection that still has a span *)

(** X16: [request()] never looks for an attached span.  In a traced
    [request()] whose span creation and propagation do not fail, a new span
    is attached in place of the one that was, and that one is left as it
    is: not finished, not tagged, and no longer reachable from the
    connection. *)
Theorem request_replaces_attached_span (E : Env) (args : list pyval)
    (kwargs : gmap string pyval) (w : World) (p : Pin.t) (d : gmap string string)
    (r : nat) (s : Span.t) :
  datadog_pin (instance w) = Some p →
  faults E TracerTrace = None →
  faults E PropagatorInject = None →
  default (PDict ∅) (call_headers {| f_args := args; f_kwargs := kwargs |}) = PDict d →
  attrs (instance w) !! "_datadog_span" = Some (PSpan r) →
  spans w !! r = Some s →
  let w1 := snd (request_instrumentation E args kwargs w) in
  attrs (instance w1) !! "_datadog_span" = Some (PSpan (length (spans w))) ∧
  length (spans w) ≠ r ∧
  spans w1 !! r = Some s ∧
  spans w1 !! length (spans w) = Some (new_span E w).
Proof.
  intros Hpin Ht Hi Hd Ha Hs w1. unfold w1.
  rewrite (request_instrumentation_ok E args kwargs w p d) by done.
  unfold span_attached, set_attrs, set_spans. simpl.
  pose proof (lookup_lt_Some _ _ _ Hs) as Hlt.
  split; [apply lookup_insert_eq|]. split; [lia|].
  split; [by rewrite lookup_app_l|]. by rewrite list_lookup_middle.
Qed.

(** A second [request()] before the response of the first was read. *)
Lemma request_replaces_attached_span_witness :
  let w1 := snd (request_instrumentation (example_env false) [PStr "GET"; PStr "/"] ∅
                   example_world_in_request) in
  attrs (instance w1) !! "_datadog_span" = Some (PSpan 1) ∧
  Span.finish_calls <$> spans w1 = [0%nat; 0%nat].
Proof.
  intros w1.
  destruct (request_replaces_attached_span (example_env false) [PStr "GET"; PStr "/"] ∅
              example_world_in_request
              (Pin.mk "httplib" None example_tracer (example_config false)) ∅ 0%nat
              (Span.mk "http.client.request" "http" 7 0 ∅ 0 None 0%nat))
    as (H & _); [reflexivity..|].
  split; [exact H|]. vm_compute. reflexivity.
Defined.

(** ** A response that cannot be tagged *)

(** X17: when tagging the status code raises an [Exception] in
    [getresponse()], the response is still returned and one debug message
    is logged, but the rest of the block is skipped: the span is neither
    finished nor detached, and its error flag is not set. *)
Theorem getresponse_tag_failure_leaves_span (E : Env) (e : exn) (func : Func)
    (args : list pyval) (kwargs : gmap string pyval) (w w1 : World) (p : Pin.t)
    (st : Z) (hs : list (string * string)) (r : nat) :
  datadog_pin (instance w) = Some p →
  Pin.enabled p = true →
  func args kwargs w = (Return (PResponse st hs), w1) →
  attrs (instance w1) !! "_datadog_span" = Some (PSpan r) →
  faults E (SpanSetTag (STATUS_CODE E)) = Some e →
  exn_is_Exception e = true →
  _wrap_getresponse E func args kwargs w
  = (Return (PResponse st hs), snd (log_debug "error applying request tags" w1)).
Proof.
  intros Hpin Hen Hf Ha Ht He.
  unfold _wrap_getresponse, Pin_get_from, bind at 1. rewrite Hpin. simpl. rewrite Hen. simpl.
  unfold try_return_finally. rewrite Hf. simpl.
  unfold getresponse_finally, try_except_Exception.
  unfold bind at 1, getattr at 1. rewrite Ha. simpl.
  unfold check_fault. rewrite Ht. unfold bind, raise. simpl. by rewrite He.
Qed.

Lemma getresponse_tag_failure_leaves_span_witness :
  let E := with_faults (example_env false) (failing_set_tag (TypeError "bad tag")) in
  let out := _wrap_getresponse E (returns (PResponse 500 [])) [] ∅ example_world_in_request in
  fst out = Return (PResponse 500 []) ∧
  span_summary <$> spans (snd out) = [(0, None, 0%nat)] ∧
  attrs (instance (snd out)) !! "_datadog_span" = Some (PSpan 0).
Proof.
  intros E out. unfold out.
  rewrite (getresponse_tag_failure_leaves_span E (TypeError "bad tag")
             (returns (PResponse 500 [])) [] ∅ example_world_in_request
             example_world_in_request
             (Pin.mk "httplib" None example_tracer (example_config false)) 500 [] 0
             eq_refl eq_refl eq_refl eq_refl eq_refl eq_refl).
  vm_compute. repeat split; reflexivity.
Defined.

(** ** A whole cycle *)

Lemma request_tags_keeps (E : Env) (method : pyval) (pr : ParseResult) (s : Span.t) :
  Span.exc_info (request_tags E method pr s) = Span.exc_info s ∧
  Span.finish_calls (request_tags E method pr s) = Span.finish_calls s.
Proof. unfold request_tags. by destruct (trace_query_string (config_httplib E)). Qed.

(** X18: a complete cycle through the patched methods, in which nothing
    of the tracing library fails: [request(method, path, ...)], which calls
    the patched [putrequest(method, path)], then [getresponse()] returning a
    response with status [st].  Exactly one span is added to the tracer's
    spans; [finish()] has been called on it once, its error flag is 1 if
    [500 <= st] and 0 otherwise, no exception is recorded on it, and
    [_datadog_span] is no longer set. *)
Theorem complete_cycle_makes_one_finished_span (E : Env) (method path : pyval)
    (rest : list pyval) (kwargs : gmap string pyval) (w : World) (p : Pin.t)
    (d : gmap string string) (pr : ParseResult) (v : pyval) (st : Z)
    (hs : list (string * string)) :
  datadog_pin (instance w) = Some p →
  should_skip_request (Some p) (instance w) = false →
  (∀ op, faults E op = None) →
  default (PDict ∅)
    (call_headers {| f_args := method :: path :: rest; f_kwargs := kwargs |}) = PDict d →
  urlparse E (request_url E (instance w) path) = Return pr →
  let out1 := _wrap_request E (library_request (_wrap_putrequest E (returns v)))
                (method :: path :: rest) kwargs w in
  let out2 := _wrap_getresponse E (returns (PResponse st hs)) [] ∅ (snd out1) in
  fst out1 = Return v ∧
  fst out2 = Return (PResponse st hs) ∧
  attrs (instance (snd out2)) !! "_datadog_span" = None ∧
  ∃ s, spans (snd out2) = (spans w ++ [s])%list ∧
       span_summary s = (if 500 <=? st then 1 else 0, None, 1%nat).
Proof.
  intros Hpin Hskip Hfault Hd Hurl out1 out2.
  assert (Hen : Pin.enabled p = true).
  { unfold should_skip_request in Hskip. by destruct (Pin.enabled p). }
  set (n := length (spans w)).
  set (w2 := set_spans (alter (request_tags E method pr) n) (span_attached E w)).
  assert (H1 : out1 = (Return v, w2)).
  { unfold out1.
    rewrite _wrap_request_traced by (by rewrite Hpin).
    unfold bind at 1.
    rewrite (request_instrumentation_ok E (method :: path :: rest) kwargs w p d) by done.
    apply call_recording_errors_return. unfold library_request.
    assert (Htake : ∀ fr : Frame,
              fr = {| f_args := <[3%nat := PDict (propagation_headers E
                                  (fresh_ids E (length (spans w))) d)]> (method :: path :: rest);
                      f_kwargs := kwargs |} ∨
              f_args fr = method :: path :: rest →
              take 2 (f_args fr) = [method; path]).
    { intros fr [->| ->]; [|done]. simpl. by destruct rest as [|? [|??]]. }
    rewrite Htake.
    - rewrite _wrap_putrequest_traced by (simpl; by rewrite Hpin).
      rewrite (bind_return _ _ _ w2 tt).
      + by apply call_recording_errors_return.
      + unfold putrequest_instrumentation, putrequest_try_block.
        apply (reuse_block_result E _ _ _ _ (PSpan n) (span_attached E w)
                 (span_attached E w)).
        * left. split; [|done]. unfold span_attached, set_attrs. simpl.
          apply lookup_insert_eq.
        * by apply putrequest_after_span_ok.
    - destruct (distributed_tracing (Pin._config p)); [|by right].
      destruct (3 <? length (method :: path :: rest))%nat; [by left|by right]. }
  assert (Hs2 : spans w2 !! n = Some (request_tags E method pr (new_span E w))).
  { unfold w2, span_attached, set_spans, set_attrs. simpl.
    rewrite list_lookup_alter_eq. unfold n. by rewrite list_lookup_middle. }
  assert (H2 : out2 = (Return (PResponse st hs),
                       set_attrs (delete "_datadog_span")
                         (set_spans (alter (response_recorded E st hs) n) w2))).
  { unfold out2. rewrite H1. simpl.
    apply (_wrap_getresponse_return E _ [] ∅ w2 w2 p st hs n); try done.
    unfold w2, span_attached, set_attrs, set_spans. simpl. apply lookup_insert_eq. }
  rewrite H1, H2. simpl. split; [done|]. split; [done|].
  split; [apply lookup_delete_eq|].
  exists (response_recorded E st hs (request_tags E method pr (new_span E w))).
  split.
  - rewrite list_alter_alter_eq. unfold n.
    rewrite alter_app_r_alt by done. rewrite Nat.sub_diag. done.
  - rewrite response_recorded_summary.
    destruct (request_tags_keeps E method pr (new_span E w)) as [-> ->]. done.
Qed.

(** [request('GET', '/')] then a 500 response on the example connection. *)
Lemma complete_cycle_makes_one_finished_span_witness :
  let E := example_env true in
  let out1 := _wrap_request E (library_request (_wrap_putrequest E (returns PNone)))
                [PStr "GET"; PStr "/"] ∅ (example_world true) in
  let out2 := _wrap_getresponse E (returns (PResponse 500 [])) [] ∅ (snd out1) in
  attrs (instance (snd out2)) !! "_datadog_span" = None ∧
  ∃ s, spans (snd out2) = [s] ∧ span_summary s = (1, None, 1%nat).
Proof.
  intros E out1 out2.
  destruct (complete_cycle_makes_one_finished_span E (PStr "GET") (PStr "/") [] ∅
              (example_world true)
              (Pin.mk "httplib" None example_tracer (example_config true)) ∅
              {| pr_scheme := "http"; pr_netloc := "example.com"; pr_path := "/";
                 pr_params := ""; pr_query := ""; pr_fragment := "" |}
              PNone 500 [])
    as (_ & _ & Ha & s & Hs & Hsum); [reflexivity..|].
  split; [exact Ha|]. by exists s.
Defined.
